(** * Analysis request pipeline of the Charlotte toolkit UI surfaces

    A shallow embedding of the four React surfaces of the repository

    - [ui/pages/ui-page/src/App.tsx]            (module [UiPage])
    - [ui/extensions/ui-extension/src/App.tsx]  (module [UiExtension])
    - [ui/extensions/azure-analyst/src/App.tsx] (module [AzureAnalystApp])
    - [ui/extensions/azure-analyst/src/extension.tsx]
                                                (module [AzureAnalystExtension])

    and of the fragment of JavaScript they rely on (module [Js]): dynamically
    typed values, truthiness, [||], property access, optional chaining and
    [String.prototype.trim].

    An [async] handler is split at its single [await]: the part before it
    runs when the handler is invoked and yields the new component state
    together with the remote call it issued; the part after it ([resume])
    runs when the call settles, on the component state of that moment and on
    the local variables the handler captured before suspending.  React
    re-renders between two discrete events, so every handler invocation reads
    the state left by the previous event. *)

From stdpp Require Import gmap strings list pretty.
From Stdlib Require Import ZArith Ascii.

Set Warnings "-register-all".
Local Open Scope string_scope.
Local Open Scope list_scope.

(* ===================================================================== *)
(** ** The JavaScript fragment *)
(* ===================================================================== *)

Module Js.

(** Values.  Numbers are integers: the surfaces only test numbers for
    truthiness, where a fractional number behaves like any non-zero
    integer.  An object is a finite map from property names to values;
    the properties read by the surfaces are never those of
    [Object.prototype]. *)
Inductive value :=
| VUndefined
| VNull
| VBool (b : bool)
| VNum (n : Z)
| VStr (s : string)
| VArr (l : list value)
| VObj (o : gmap string value).

Abbreviation object := (gmap string value).

(** [ToBoolean]. *)
Definition truthy (v : value) : bool :=
  match v with
  | VUndefined | VNull => false
  | VBool b => b
  | VNum n => negb (n =? 0)%Z
  | VStr s => negb (String.eqb s "")
  | VArr _ | VObj _ => true
  end.

(** [a || b]. *)
Definition or_else (a b : value) : value := if truthy a then a else b.

(** [o.k] for an object [o]. *)
Definition get (o : object) (k : string) : value := default VUndefined (o !! k).

(** [v.k]: [None] stands for the [TypeError] raised on [null] and
    [undefined]; a primitive has none of the properties read here. *)
Definition member (v : value) (k : string) : option value :=
  match v with
  | VUndefined | VNull => None
  | VObj o => Some (get o k)
  | _ => Some VUndefined
  end.

(** [v?.k]. *)
Definition opt_member (v : value) (k : string) : value :=
  match v with
  | VObj o => get o k
  | _ => VUndefined
  end.

(** [o?.k] for a nullable object reference. *)
Definition opt_get (o : option object) (k : string) : value :=
  match o with
  | Some o => get o k
  | None => VUndefined
  end.

(** [v === 'lit']. *)
Definition strict_eq_str (v : value) (lit : string) : bool :=
  match v with
  | VStr s => String.eqb s lit
  | _ => false
  end.

(** The message of the [TypeError] raised by [v.k] on a nullish [v]
    (the wording is the engine's; this is V8's). *)
Definition TypeError_message (v : value) (k : string) : string :=
  "Cannot read properties of "
  +:+ (match v with VNull => "null" | _ => "undefined" end)
  +:+ " (reading '" +:+ k +:+ "')".

(** Strings are sequences of code units below 256.  The white space and
    line terminators of the language in that range: TAB, LF, VT, FF, CR,
    SP and NBSP. *)
Definition is_white_space (c : ascii) : bool :=
  bool_decide (nat_of_ascii c ∈ [9; 10; 11; 12; 13; 32; 160]).

Fixpoint trimStart (s : string) : string :=
  match s with
  | "" => ""
  | String c s' => if is_white_space c then trimStart s' else s
  end.

Fixpoint trimEnd (s : string) : string :=
  match s with
  | "" => ""
  | String c s' =>
      match trimEnd s' with
      | "" => if is_white_space c then "" else String c ""
      | t => String c t
      end
  end.

(** [s.trim()]. *)
Definition trim (s : string) : string := trimEnd (trimStart s).

(** [!s.trim()]. *)
Definition blank (s : string) : bool := String.eqb (trim s) "".

(** Every code unit of [s] is white space. *)
Fixpoint whitespace_only (s : string) : bool :=
  match s with
  | "" => true
  | String c s' => is_white_space c && whitespace_only s'
  end.

(** The line feed written [\n] in a template literal. *)
Definition LF : string := String (ascii_of_nat 10) "".

(** The no-break space written [\u00A0]. *)
Definition NBSP : string := String (ascii_of_nat 160) "".

(** [s.split('\n')]: the pieces between the line feeds, one more than
    there are line feeds. *)
Fixpoint split_LF (s : string) : list string :=
  match s with
  | "" => [""]
  | String c s' =>
      if Ascii.eqb c (ascii_of_nat 10) then "" :: split_LF s'
      else
        match split_LF s' with
        | line :: lines => String c line :: lines
        | [] => [String c ""]
        end
  end.

(** [lines.join('\n')]. *)
Fixpoint join_LF (lines : list string) : string :=
  match lines with
  | [] => ""
  | [line] => line
  | line :: rest => line +:+ LF +:+ join_LF rest
  end.

(** The number of line feeds of [s]. *)
Fixpoint count_LF (s : string) : nat :=
  match s with
  | "" => 0
  | String c s' =>
      (if Ascii.eqb c (ascii_of_nat 10) then 1 else 0) + count_LF s'
  end.

(** [s.startsWith(p)]. *)
Definition startsWith (s p : string) : bool := String.prefix p s.



End Js.

Export Js.

Notation "a <||> b" := (or_else a b) (at level 50, left associativity).

(* ===================================================================== *)
(** ** ui/pages/ui-page/src/App.tsx *)
(* ===================================================================== *)

Module UiPage.

Inductive Role := user | assistant.

(** An entry of [chatHistory]. *)
Record Turn := { role : Role; content : value }.

(** The [useState] cells of [Page]; [falcon] is [true] once the client
    object is stored, [error] is [VNull] when there is none. *)
Record State := {
  falcon : bool;
  logs : string;
  chatInput : string;
  chatHistory : list Turn;
  loading : bool;
  error : value
}.

Definition initial : State :=
  {| falcon := false; logs := ""; chatInput := ""; chatHistory := [];
     loading := false; error := VNull |}.

Definition setFalcon (b : bool) (s : State) : State :=
  {| falcon := b; logs := logs s; chatInput := chatInput s;
     chatHistory := chatHistory s; loading := loading s; error := error s |}.
Definition setLogs (v : string) (s : State) : State :=
  {| falcon := falcon s; logs := v; chatInput := chatInput s;
     chatHistory := chatHistory s; loading := loading s; error := error s |}.
Definition setChatInput (v : string) (s : State) : State :=
  {| falcon := falcon s; logs := logs s; chatInput := v;
     chatHistory := chatHistory s; loading := loading s; error := error s |}.
Definition setChatHistory (h : list Turn) (s : State) : State :=
  {| falcon := falcon s; logs := logs s; chatInput := chatInput s;
     chatHistory := h; loading := loading s; error := error s |}.
Definition setLoading (b : bool) (s : State) : State :=
  {| falcon := falcon s; logs := logs s; chatInput := chatInput s;
     chatHistory := chatHistory s; loading := b; error := error s |}.
Definition setError (e : value) (s : State) : State :=
  {| falcon := falcon s; logs := logs s; chatInput := chatInput s;
     chatHistory := chatHistory s; loading := loading s; error := e |}.

(** [falcon.functions.post(name, body)]. *)
Inductive Call := post (name : string) (body : object).

(** How the awaited call settles: with a response value, or by throwing. *)
Inductive Settled := Resolved (response : value) | Rejected.

(** A handler suspended at its [await]: which handler it is and the
    [newHistory] it built before suspending. *)
Inductive Handler := AnalyzeLogs | ChatSubmit.
Record Suspended := { handler : Handler; newHistory : list Turn }.

(** [handleAnalyzeLogs], up to the [await]. *)
Definition handleAnalyzeLogs (s : State) : State * option (Call * Suspended) :=
  if negb (falcon s) || blank (logs s) then (s, None)
  else
    let newHistory :=
      chatHistory s
      ++ [ {| role := user;
              content := VStr ("Analyze these logs:" +:+ LF +:+ logs s) |} ] in
    (setChatHistory newHistory (setError VNull (setLoading true s)),
     Some (post "handle_triage_request" {[ "logs" := VStr (logs s) ]},
           {| handler := AnalyzeLogs; newHistory := newHistory |})).

(** [handleChatSubmit], up to the [await]. *)
Definition handleChatSubmit (s : State) : State * option (Call * Suspended) :=
  if negb (falcon s) || blank (chatInput s) then (s, None)
  else
    let message := chatInput s in
    let newHistory :=
      chatHistory s ++ [ {| role := user; content := VStr message |} ] in
    (setChatHistory newHistory
       (setError VNull (setLoading true (setChatInput "" s))),
     Some (post "handle_triage_request" {[ "message" := VStr message ]},
           {| handler := ChatSubmit; newHistory := newHistory |})).

(** The test both handlers apply to what the call settled with: the
    [if] condition, and [false] when the call throws. *)
Definition succeeded (r : Settled) : bool :=
  match r with
  | Resolved response =>
      truthy response && strict_eq_str (opt_member response "status") "success"
  | Rejected => false
  end.

(** The fallback text of the [else] branch of each handler. *)
Definition fallback (h : Handler) : string :=
  match h with
  | AnalyzeLogs => "Analysis failed."
  | ChatSubmit => "Chat failed."
  end.

(** The rest of either handler: the [try] body after the [await], the
    [catch] and the [finally]. *)
Definition resume (k : Suspended) (r : Settled) (s : State) : State :=
  setLoading false
    match r with
    | Resolved response =>
        if truthy response
           && strict_eq_str (opt_member response "status") "success"
        then
          setChatHistory
            (newHistory k
             ++ [ {| role := assistant;
                     content := opt_member response "response" |} ]) s
        else
          setError
            (opt_member response "message" <||> VStr (fallback (handler k))) s
    | Rejected => setError (VStr "Error calling AI service.") s
    end.

(** The surface: the component state, the handlers suspended at their
    [await] and the log of the remote calls issued so far. *)
Record World := {
  ui : State;
  inflight : list Suspended;
  calls : list Call
}.

Definition start : World :=
  {| ui := initial; inflight := []; calls := [] |}.

Definition with_ui (f : State -> State) (w : World) : World :=
  {| ui := f (ui w); inflight := inflight w; calls := calls w |}.

Definition invoke (h : State -> State * option (Call * Suspended))
    (w : World) : World :=
  match h (ui w) with
  | (s, None) => {| ui := s; inflight := inflight w; calls := calls w |}
  | (s, Some (c, k)) =>
      {| ui := s; inflight := inflight w ++ [k]; calls := calls w ++ [c] |}
  end.

(** What can happen to the surface.  The two buttons carry
    [disabled={loading || !logs.trim()}] and
    [disabled={loading || !chatInput.trim()}]; the [onKeyDown] of the chat
    input calls [handleChatSubmit] on [Enter] with no condition. *)
Inductive Event :=
| Connected
| ConnectFailed
| SlInputLogs (v : string)
| SlInputChat (v : string)
| ClickAnalyzeLogs
| ClickSend
| KeyDown (key : string)
| Settle (i : nat) (r : Settled).

Definition step (w : World) (e : Event) : World :=
  match e with
  | Connected => with_ui (setFalcon true) w
  | ConnectFailed => with_ui (setError (VStr "Failed to connect to Falcon.")) w
  | SlInputLogs v => with_ui (setLogs v) w
  | SlInputChat v => with_ui (setChatInput v) w
  | ClickAnalyzeLogs =>
      if loading (ui w) || blank (logs (ui w)) then w
      else invoke handleAnalyzeLogs w
  | ClickSend =>
      if loading (ui w) || blank (chatInput (ui w)) then w
      else invoke handleChatSubmit w
  | KeyDown key =>
      if String.eqb key "Enter" then invoke handleChatSubmit w else w
  | Settle i r =>
      match inflight w !! i with
      | Some k =>
          {| ui := resume k r (ui w);
             inflight := delete i (inflight w);
             calls := calls w |}
      | None => w
      end
  end.

Definition run (w : World) (es : list Event) : World := foldl step w es.

(** Event classes used to describe traces. *)
Definition enter_key (e : Event) : bool :=
  match e with
  | KeyDown key => String.eqb key "Enter"
  | _ => false
  end.

Definition connects (e : Event) : bool :=
  match e with
  | Connected => true
  | _ => false
  end.

(** At most one handler is suspended; [loading] is set exactly while one
    is, and that handler captured the transcript now displayed. *)
Definition single_flight (w : World) : Prop :=
  match inflight w with
  | [] => loading (ui w) = false
  | [k] => loading (ui w) = true /\ newHistory k = chatHistory (ui w)
  | _ => False
  end.

End UiPage.

(* ===================================================================== *)
(** ** ui/extensions/ui-extension/src/App.tsx *)
(* ===================================================================== *)

Module UiExtension.

(** The three lines of the summary block of the panel. *)
Record Summary := { Detection : value; Severity : value; Tactic : value }.

Definition summary (detectionData : object) : Summary :=
  {| Detection := get detectionData "name" <||> VStr "Unknown";
     Severity := get detectionData "severity" <||> VStr "Unknown";
     Tactic := get detectionData "tactic" <||> VStr "Unknown" |}.

(** What the component returns: the waiting card while [detectionData] is
    [null], the panel with its summary block otherwise. *)
Inductive View := Waiting | Panel (fields : Summary).

Definition render (detectionData : option object) : View :=
  match detectionData with
  | None => Waiting
  | Some d => Panel (summary d)
  end.

(** The [useState] cells of [Extension]. *)
Record State := {
  falcon : bool;
  detectionData : option object;
  analysis : value;
  loading : bool;
  error : value
}.

Definition initial : State :=
  {| falcon := false; detectionData := None; analysis := VNull;
     loading := false; error := VNull |}.

Definition setFalcon (b : bool) (s : State) : State :=
  {| falcon := b; detectionData := detectionData s; analysis := analysis s;
     loading := loading s; error := error s |}.
Definition setDetectionData (d : option object) (s : State) : State :=
  {| falcon := falcon s; detectionData := d; analysis := analysis s;
     loading := loading s; error := error s |}.
Definition setAnalysis (a : value) (s : State) : State :=
  {| falcon := falcon s; detectionData := detectionData s; analysis := a;
     loading := loading s; error := error s |}.
Definition setLoading (b : bool) (s : State) : State :=
  {| falcon := falcon s; detectionData := detectionData s;
     analysis := analysis s; loading := b; error := error s |}.
Definition setError (e : value) (s : State) : State :=
  {| falcon := falcon s; detectionData := detectionData s;
     analysis := analysis s; loading := loading s; error := e |}.

(** The listener registered with [api.events.on('data', ...)]. *)
Definition onData (data : object) (s : State) : State :=
  setAnalysis VNull (setDetectionData (Some data) s).

(** [falcon.functions.post(name, body)]. *)
Inductive Call := post (name : string) (body : object).

Inductive Settled := Resolved (response : value) | Rejected.

(** [handleTriage], up to the [await]. *)
Definition handleTriage (s : State) : State * option Call :=
  if negb (falcon s) then (s, None)
  else
    match detectionData s with
    | None => (s, None)
    | Some d =>
        (setError VNull (setLoading true s),
         Some (post "handle_triage_request" d))
    end.

(** The [if] condition on the response, [false] when the call throws. *)
Definition succeeded (r : Settled) : bool :=
  match r with
  | Resolved response =>
      truthy response && strict_eq_str (opt_member response "status") "success"
  | Rejected => false
  end.

(** The rest of [handleTriage]: [try] body, [catch], [finally]. *)
Definition resume (r : Settled) (s : State) : State :=
  setLoading false
    match r with
    | Resolved response =>
        if truthy response
           && strict_eq_str (opt_member response "status") "success"
        then setAnalysis (opt_member response "response") s
        else setError (opt_member response "message"
                       <||> VStr "Analysis failed.") s
    | Rejected => setError (VStr "Error calling AI service.") s
    end.

(** The surface: component state, number of handlers suspended at their
    [await], log of the calls issued. *)
Record World := {
  ui : State;
  inflight : nat;
  calls : list Call
}.

Definition start : World := {| ui := initial; inflight := 0; calls := [] |}.

Definition invoke (w : World) : World :=
  match handleTriage (ui w) with
  | (s, None) => {| ui := s; inflight := inflight w; calls := calls w |}
  | (s, Some c) =>
      {| ui := s; inflight := S (inflight w); calls := calls w ++ [c] |}
  end.

(** [Connected d]: [api.connect()] resolved and [api.data] was [d]; the
    data listener exists from then on.  The panel with its buttons is
    returned only while [detectionData] is set; the Triage button is
    rendered under [!analysis && !loading], the Re-analyze button under
    [analysis], with no [disabled] attribute. *)
Inductive Event :=
| Connected (data : option object)
| ConnectFailed
| Data (data : object)
| ClickTriage
| ClickReanalyze
| Settle (r : Settled).

Definition step (w : World) (e : Event) : World :=
  match e with
  | Connected d =>
      {| ui := match d with
               | Some d => setDetectionData (Some d) (setFalcon true (ui w))
               | None => setFalcon true (ui w)
               end;
         inflight := inflight w; calls := calls w |}
  | ConnectFailed =>
      {| ui := setError (VStr "Failed to connect to Falcon.") (ui w);
         inflight := inflight w; calls := calls w |}
  | Data d =>
      if falcon (ui w)
      then {| ui := onData d (ui w); inflight := inflight w; calls := calls w |}
      else w
  | ClickTriage =>
      if bool_decide (detectionData (ui w) = None)
         || truthy (analysis (ui w)) || loading (ui w)
      then w else invoke w
  | ClickReanalyze =>
      if bool_decide (detectionData (ui w) = None)
         || negb (truthy (analysis (ui w)))
      then w else invoke w
  | Settle r =>
      match inflight w with
      | 0 => w
      | S n => {| ui := resume r (ui w); inflight := n; calls := calls w |}
      end
  end.

Definition run (w : World) (es : list Event) : World := foldl step w es.

End UiExtension.

(* ===================================================================== *)
(** ** ui/extensions/azure-analyst/src/App.tsx *)
(* ===================================================================== *)

Module AzureAnalystApp.

(** The [useState] cells of [App] that are read somewhere ([falcon] is
    only ever written).  [analysisResult] and [error] are [VNull] when
    empty. *)
Record State := {
  detectionData : option object;
  isLoading : bool;
  analysisResult : value;
  error : value
}.

Definition initial : State :=
  {| detectionData := None; isLoading := false;
     analysisResult := VNull; error := VNull |}.

Definition setDetectionData (d : option object) (s : State) : State :=
  {| detectionData := d; isLoading := isLoading s;
     analysisResult := analysisResult s; error := error s |}.
Definition setIsLoading (b : bool) (s : State) : State :=
  {| detectionData := detectionData s; isLoading := b;
     analysisResult := analysisResult s; error := error s |}.
Definition setAnalysisResult (r : value) (s : State) : State :=
  {| detectionData := detectionData s; isLoading := isLoading s;
     analysisResult := r; error := error s |}.
Definition setError (e : value) (s : State) : State :=
  {| detectionData := detectionData s; isLoading := isLoading s;
     analysisResult := analysisResult s; error := e |}.

(** The listener registered with [client.events.on('data', ...)]. *)
Definition onData (data : object) (s : State) : State :=
  setError VNull (setAnalysisResult VNull (setDetectionData (Some data) s)).

(** [fetch(url, {method: 'POST', body: JSON.stringify(record)})]: the log
    keeps the record handed to [JSON.stringify]; [wire_body] below is what
    the serialised body carries. *)
Inductive Call := fetch (url : string) (body : object).

(** A thrown value: an [Error] with its message, or anything else. *)
Inductive Thrown := ErrorObject (message : string) | NotAnError.

(** How the two awaits settle: [fetch] rejects, or resolves to a response
    with an HTTP status whose [json()] rejects or yields a value. *)
Inductive JsonOutcome := JsonRejected (err : Thrown) | JsonValue (result : value).
Inductive FetchOutcome :=
| FetchRejected (err : Thrown)
| FetchResponse (status : nat) (json : JsonOutcome).

(** [response.ok]. *)
Definition ok (status : nat) : bool := (200 <=? status)%nat && (status <=? 299)%nat.

(** [handleAnalyzeClick], up to the first [await]. *)
Definition handleAnalyzeClick (s : State) : State * option Call :=
  match detectionData s with
  | None => (setError (VStr "No detection data available to analyze") s, None)
  | Some d =>
      (setAnalysisResult VNull (setError VNull (setIsLoading true s)),
       Some (fetch "/api/functions/azure_analyzer" d))
  end.

(** The [try] body after the [fetch]: the state it leaves, or what it
    throws. *)
Definition try_body (o : FetchOutcome) (s : State) : State + Thrown :=
  match o with
  | FetchRejected err => inr err
  | FetchResponse status json =>
      if negb (ok status)
      then inr (ErrorObject ("HTTP error! status: " +:+ pretty status))
      else
        match json with
        | JsonRejected err => inr err
        | JsonValue result =>
            match member result "status" with
            | None => inr (ErrorObject (TypeError_message result "status"))
            | Some status' =>
                if strict_eq_str status' "success"
                then inl (setAnalysisResult result s)
                else inl (setError (opt_member result "message"
                                    <||> VStr "Analysis failed") s)
            end
        end
  end.

(** The [catch] clause. *)
Definition catch (err : Thrown) (s : State) : State :=
  setError
    (VStr match err with
          | ErrorObject message => message
          | NotAnError => "An unexpected error occurred"
          end) s.

(** The rest of [handleAnalyzeClick]: [try], [catch], [finally]. *)
Definition resume (o : FetchOutcome) (s : State) : State :=
  setIsLoading false
    match try_body o s with
    | inl s' => s'
    | inr err => catch err s
    end.

(** The outcomes on which the [try] body reaches [setAnalysisResult]: a
    2xx response whose JSON body has [status] "success". *)
Definition succeeded (o : FetchOutcome) : bool :=
  match o with
  | FetchResponse status (JsonValue result) =>
      ok status
      && match member result "status" with
         | Some status' => strict_eq_str status' "success"
         | None => false
         end
  | _ => false
  end.

Definition getHostName (detectionData : option object) : value :=
  opt_get detectionData "hostname"
  <||> opt_get detectionData "host_name"
  <||> opt_get detectionData "device_name"
  <||> VStr "Unknown Device".

Definition getDetectionName (detectionData : option object) : value :=
  opt_get detectionData "name"
  <||> opt_get detectionData "detection_name"
  <||> VStr "Unknown Detection".

(** The surface: component state, number of handlers suspended at their
    [await], log of the requests issued. *)
Record World := {
  ui : State;
  inflight : nat;
  calls : list Call
}.

Definition start : World := {| ui := initial; inflight := 0; calls := [] |}.

Definition invoke (w : World) : World :=
  match handleAnalyzeClick (ui w) with
  | (s, None) => {| ui := s; inflight := inflight w; calls := calls w |}
  | (s, Some c) =>
      {| ui := s; inflight := S (inflight w); calls := calls w ++ [c] |}
  end.

(** The Analyze button exists while [detectionData] is set, the Re-analyze
    button while [analysisResult] is; both carry [disabled={isLoading}]. *)
Inductive Event :=
| Data (data : object)
| ClickAnalyze
| ClickReanalyze
| Settle (o : FetchOutcome).

Definition step (w : World) (e : Event) : World :=
  match e with
  | Data data =>
      {| ui := onData data (ui w); inflight := inflight w; calls := calls w |}
  | ClickAnalyze =>
      if bool_decide (detectionData (ui w) = None) || isLoading (ui w) then w
      else invoke w
  | ClickReanalyze =>
      if negb (truthy (analysisResult (ui w))) || isLoading (ui w) then w
      else invoke w
  | Settle o =>
      match inflight w with
      | 0 => w
      | S n => {| ui := resume o (ui w); inflight := n; calls := calls w |}
      end
  end.

Definition run (w : World) (es : list Event) : World := foldl step w es.


(** The elements the analysis text is rendered to, one per line. *)
Inductive Element :=
| Br
| H4 (text : string)
| Li (text : string)
| P (text : string).

Fixpoint drop_hashes (s : string) : string :=
  match s with
  | "" => ""
  | String c s' => if Ascii.eqb c "#"%char then drop_hashes s' else s
  end.

(** [line.replace(/^#+\s/, '')]. *)
Definition replace_heading_marker (line : string) : string :=
  match line with
  | "" => line
  | String c s' =>
      if Ascii.eqb c "#"%char
      then
        match drop_hashes s' with
        | "" => line
        | String d rest => if is_white_space d then rest else line
        end
      else line
  end.

(** [line.replace(/^-\s/, '')]. *)
Definition replace_item_marker (line : string) : string :=
  match line with
  | String c (String d rest) =>
      if Ascii.eqb c "-"%char && is_white_space d then rest else line
  | _ => line
  end.

(** A run of [n] hashes. *)
Fixpoint hashes (n : nat) : string :=
  match n with
  | 0 => ""
  | S n => String "#"%char (hashes n)
  end.

(** The callback mapped over the lines of the analysis. *)
Definition renderLine (line : string) : Element :=
  if String.eqb (trim line) "" then Br
  else if startsWith line "##" then H4 (replace_heading_marker line)
  else if startsWith line "- " then Li (replace_item_marker line)
  else P line.

(** The result panel [{analysisResult && (...)}]: absent, raising a
    [TypeError] while rendering ([analysis] has no [split]), or shown with
    its lines. *)
Inductive Panel := Hidden | Raises | Shown (lines : list Element).

Definition analysisPanel (analysisResult : value) : Panel :=
  if truthy analysisResult
  then
    match opt_member analysisResult "analysis" with
    | VStr text => Shown (map renderLine (split_LF text))
    | _ => Raises
    end
  else Hidden.

End AzureAnalystApp.

(* ===================================================================== *)
(** ** ui/extensions/azure-analyst/src/extension.tsx *)
(* ===================================================================== *)

Module AzureAnalystExtension.

(** The [useState] cells of [AzureAnalystExtension]; [analysis] holds an
    [AnalysisResult] object or [VNull]. *)
Record State := {
  data : option object;
  analysis : value;
  loading : bool;
  error : value
}.

Definition setData (d : option object) (s : State) : State :=
  {| data := d; analysis := analysis s; loading := loading s;
     error := error s |}.
Definition setAnalysis (a : value) (s : State) : State :=
  {| data := data s; analysis := a; loading := loading s; error := error s |}.
Definition setLoading (b : bool) (s : State) : State :=
  {| data := data s; analysis := analysis s; loading := b; error := error s |}.
Definition setError (e : value) (s : State) : State :=
  {| data := data s; analysis := analysis s; loading := loading s;
     error := e |}.

(** The listener registered with [falcon.events.on('data', ...)]. *)
Definition onData (newData : object) (s : State) : State :=
  setError VNull (setAnalysis VNull (setData (Some newData) s)).

(** [falcon.fn.execute(name, argument)]. *)
Inductive Call := execute (name : string) (argument : object).

Inductive Thrown := ErrorObject (message : string) | NotAnError.
Inductive Settled := Resolved (response : value) | Rejected (err : Thrown).

(** The object literal passed to [azure_analyzer]. *)
Definition argument_of (data : object) : object :=
  {[ "type" := if truthy (get data "incident_id")
               then VStr "incident" else VStr "detection";
     "data" := VObj data ]}.

(** [handleAnalyze], up to the [await]. *)
Definition handleAnalyze (s : State) : State * option Call :=
  match data s with
  | None =>
      (setError (VStr "No detection or incident data available") s, None)
  | Some d =>
      (setAnalysis (VObj {[ "status" := VStr "loading" ]})
         (setError VNull (setLoading true s)),
       Some (execute "azure_analyzer" (argument_of d)))
  end.

(** The [try] body after the [await]. *)
Definition try_body (r : Settled) (s : State) : State + Thrown :=
  match r with
  | Rejected err => inr err
  | Resolved response =>
      match member response "status" with
      | None => inr (ErrorObject (TypeError_message response "status"))
      | Some status =>
          if strict_eq_str status "success"
          then
            inl (setAnalysis
                   (VObj {[ "status" := VStr "success";
                            "analysis" := opt_member response "analysis";
                            "timestamp" := opt_member response "timestamp";
                            "model" := opt_member response "model" ]}) s)
          else
            inl (setError
                   (opt_member response "message"
                    <||> VStr "Failed to get analysis")
                   (setAnalysis
                      (VObj {[ "status" := VStr "error";
                               "message" := opt_member response "message"
                                            <||> VStr "Analysis failed" ]})
                      s))
      end
  end.

(** The [catch] clause. *)
Definition catch (err : Thrown) (s : State) : State :=
  let errorMessage :=
    match err with
    | ErrorObject message => message
    | NotAnError => "Unknown error occurred"
    end in
  setAnalysis
    (VObj {[ "status" := VStr "error"; "message" := VStr errorMessage ]})
    (setError (VStr errorMessage) s).

(** The rest of [handleAnalyze]: [try], [catch], [finally]. *)
Definition resume (r : Settled) (s : State) : State :=
  setLoading false
    match try_body r s with
    | inl s' => s'
    | inr err => catch err s
    end.

Definition initial : State :=
  {| data := None; analysis := VNull; loading := false; error := VNull |}.

(** The identifier line of the information block. *)
Definition displayId (data : object) : value :=
  get data "id" <||> get data "detection_id" <||> get data "incident_id"
  <||> VStr "N/A".

(** [formatAnalysisText]: the text of each paragraph. *)
Definition formatAnalysisText (text : string) : list string :=
  map (fun line => if String.eqb line "" then NBSP else line) (split_LF text).

(** The result block
    [{analysis && analysis.status === 'success' && analysis.analysis && ...}]:
    absent, raising while rendering, or shown with its paragraphs. *)
Inductive Panel := Hidden | Raises | Shown (lines : list string).

Definition resultPanel (analysis : value) : Panel :=
  if truthy analysis
     && strict_eq_str (opt_member analysis "status") "success"
     && truthy (opt_member analysis "analysis")
  then
    match opt_member analysis "analysis" with
    | VStr text => Shown (formatAnalysisText text)
    | _ => Raises
    end
  else Hidden.

(** The loading block [{loading && !analysis && ...}]. *)
Definition loadingPanel (s : State) : bool :=
  loading s && negb (truthy (analysis s)).

(** The surface: component state, number of handlers suspended at their
    [await], log of the calls issued. *)
Record World := {
  ui : State;
  inflight : nat;
  calls : list Call
}.

Definition start : World := {| ui := initial; inflight := 0; calls := [] |}.

Definition invoke (w : World) : World :=
  match handleAnalyze (ui w) with
  | (s, None) => {| ui := s; inflight := inflight w; calls := calls w |}
  | (s, Some c) =>
      {| ui := s; inflight := S (inflight w); calls := calls w ++ [c] |}
  end.

(** The button carries [disabled={loading || !data}]. *)
Inductive Event :=
| Data (newData : object)
| ClickAnalyze
| Settle (r : Settled).

Definition step (w : World) (e : Event) : World :=
  match e with
  | Data newData =>
      {| ui := onData newData (ui w); inflight := inflight w;
         calls := calls w |}
  | ClickAnalyze =>
      if loading (ui w) || bool_decide (data (ui w) = None) then w
      else invoke w
  | Settle r =>
      match inflight w with
      | 0 => w
      | S n => {| ui := resume r (ui w); inflight := n; calls := calls w |}
      end
  end.

Definition run (w : World) (es : list Event) : World := foldl step w es.

End AzureAnalystExtension.

(* ===================================================================== *)
(** ** The specification's reading of alias resolution *)
(* ===================================================================== *)

Module Normalizer.

(** A field is present and non-empty when the record holds a string other
    than the empty one under that key. *)
Definition present (record : object) (alias : string) : option string :=
  match record !! alias with
  | Some (VStr s) => if String.eqb s "" then None else Some s
  | _ => None
  end.

(** The value of the first present alias, in the order of the list. *)
Fixpoint first_present (record : object) (aliases : list string)
    : option string :=
  match aliases with
  | [] => None
  | alias :: rest =>
      match present record alias with
      | Some s => Some s
      | None => first_present record rest
      end
  end.

Definition resolve (record : object) (aliases : list string)
    (sentinel : string) : value :=
  match first_present record aliases with
  | Some s => VStr s
  | None => VStr sentinel
  end.

(** The field is declared [k?: string] by the [DetectionData] interface:
    missing, [undefined] or a string. *)
Definition declared_string (record : object) (k : string) : Prop :=
  match record !! k with
  | None | Some VUndefined | Some (VStr _) => True
  | _ => False
  end.

End Normalizer.

(* ===================================================================== *)
(** ** The specification's reading of the coordinator *)
(* ===================================================================== *)

Module Coordinator.

Import AzureAnalystApp.

(** The staleness rule as the specification words it: a request was
    started in state [s], then [newRecord] arrived and reset the surface;
    when the request settles with [o] its result is dropped, so that the
    surface still shows what the reset left (no result, no error). *)
Definition discards_stale_result
    (s : State) (newRecord : object) (o : FetchOutcome) : Prop :=
  let s' := resume o (onData newRecord s) in
  analysisResult s' = VNull /\ error s' = VNull.

(** The error text as the specification words it for a rejected call: the
    [message] field of the response body when present, otherwise a
    generic fallback. *)
Definition body_message_or (generic : string) (json : JsonOutcome) : value :=
  match json with
  | JsonValue (VObj body) =>
      match body !! "message" with
      | Some m => m
      | None => VStr generic
      end
  | _ => VStr generic
  end.

End Coordinator.

(* ===================================================================== *)
(** ** The specification's reading of a completed call on the page *)
(* ===================================================================== *)

Module Transport.

Definition is_string (v : value) : bool :=
  match v with
  | VStr _ => true
  | _ => false
  end.

(** A well-formed body as the specification words it: the success marker
    and the analysis text, [{status: "success", response|analysis: string}]. *)
Definition well_formed (response : value) : bool :=
  strict_eq_str (opt_member response "status") "success"
  && (is_string (opt_member response "response")
      || is_string (opt_member response "analysis")).

(** A completion is a Failure, in the specification's classification, when
    the call fails or the body lacks the success marker or the analysis
    text; it is a Success when the body is well formed. *)
Definition completes_as_failure (r : UiPage.Settled) : bool :=
  match r with
  | UiPage.Rejected => true
  | UiPage.Resolved response => negb (well_formed response)
  end.

End Transport.

(* ===================================================================== *)
(** ** Facts about the JavaScript fragment *)
(* ===================================================================== *)

Section JsFacts.

Lemma trimStart_empty (s : string) :
  trimStart s = "" <-> whitespace_only s = true.
Proof.
  induction s as [|c s IH]; simpl; [done|].
  destruct (is_white_space c); simpl; [exact IH|].
  split; discriminate.
Qed.

Lemma trimStart_head (s t : string) (c : ascii) :
  trimStart s = String c t -> is_white_space c = false.
Proof.
  induction s as [|d s IH]; simpl; [discriminate|].
  destruct (is_white_space d) eqn:Hd; [exact IH|].
  intros [= -> _]. exact Hd.
Qed.

Lemma trimEnd_head (s : string) (c : ascii) :
  is_white_space c = false -> trimEnd (String c s) <> "".
Proof.
  intros Hc. simpl. rewrite Hc. destruct (trimEnd s); discriminate.
Qed.

Lemma trim_empty (s : string) : trim s = "" <-> whitespace_only s = true.
Proof.
  rewrite <- trimStart_empty. unfold trim.
  destruct (trimStart s) as [|c t] eqn:Hs; [done|].
  split; [|discriminate].
  intros He. destruct (trimEnd_head t c); [|exact He].
  eapply trimStart_head, Hs.
Qed.

(** [!s.trim()] holds exactly for the strings made of white space only,
    the empty one among them. *)
Lemma blank_whitespace_only (s : string) : blank s = whitespace_only s.
Proof.
  unfold blank. destruct (whitespace_only s) eqn:Hw.
  - apply trim_empty in Hw. rewrite Hw. reflexivity.
  - destruct (String.eqb_spec (trim s) "") as [He|]; [|done].
    apply trim_empty in He. congruence.
Qed.

Lemma or_else_falsy (a b : value) : truthy a = false -> a <||> b = b.
Proof. unfold or_else. intros ->. reflexivity. Qed.

Lemma or_else_truthy (a b : value) : truthy a = true -> a <||> b = a.
Proof. unfold or_else. intros ->. reflexivity. Qed.

Lemma get_absent (o : object) (k : string) : o !! k = None -> get o k = VUndefined.
Proof. unfold get. intros ->. reflexivity. Qed.

Lemma get_present (o : object) (k : string) (v : value) :
  o !! k = Some v -> get o k = v.
Proof. unfold get. intros ->. reflexivity. Qed.

End JsFacts.

(* ===================================================================== *)
(** ** The standalone page: chat and log analysis *)
(* ===================================================================== *)

Section UiPageFacts.

Import UiPage.

Lemma invoke_none (h : State -> State * option (Call * Suspended)) (w : World) :
  h (ui w) = (ui w, None) -> invoke h w = w.
Proof. unfold invoke. intros ->. by destruct w. Qed.

Lemma handleChatSubmit_blank (s : State) :
  blank (chatInput s) = true -> handleChatSubmit s = (s, None).
Proof. unfold handleChatSubmit. intros ->. by rewrite orb_true_r. Qed.

Lemma handleAnalyzeLogs_blank (s : State) :
  blank (logs s) = true -> handleAnalyzeLogs s = (s, None).
Proof. unfold handleAnalyzeLogs. intros ->. by rewrite orb_true_r. Qed.

(** Either handler, once past its guard, stores the [newHistory] it
    captured: the transcript it found plus one user entry. *)
Lemma dispatch_history (h : State -> State * option (Call * Suspended))
    (s s' : State) (c : Call) (k : Suspended) :
  h = handleAnalyzeLogs \/ h = handleChatSubmit ->
  h s = (s', Some (c, k)) ->
  chatHistory s' = newHistory k
  /\ exists content, newHistory k
                     = chatHistory s ++ [ {| role := user; content := content |} ].
Proof.
  intros [-> | ->]; unfold handleAnalyzeLogs, handleChatSubmit;
    destruct (negb (falcon s) || _); intros [= <- <- <-]; simpl; eauto.
Qed.

(** A click on a button is dropped while [loading] is set. *)
Lemma buttons_disabled_while_loading (w : World) :
  loading (ui w) = true ->
  step w ClickSend = w /\ step w ClickAnalyzeLogs = w.
Proof. simpl. intros ->. done. Qed.

(** The [Enter] key reaches [handleChatSubmit] whatever [loading] is. *)
Lemma enter_key_ignores_loading (w : World) :
  falcon (ui w) = true -> blank (chatInput (ui w)) = false ->
  calls (step w (KeyDown "Enter"))
  = calls w
    ++ [ post "handle_triage_request"
           {[ "message" := VStr (chatInput (ui w)) ]} ]
  /\ chatHistory (ui (step w (KeyDown "Enter")))
     = chatHistory (ui w)
       ++ [ {| role := user; content := VStr (chatInput (ui w)) |} ].
Proof.
  intros Hf Hb. simpl. unfold invoke, handleChatSubmit.
  rewrite Hf, Hb. simpl. done.
Qed.

(** C1, at the input where the page departs from it.  On the connected
    page the user sends "a" with the Send button, which leaves the request
    pending ([loading] set, one call issued); a further click on Send is
    dropped, but typing "b" and pressing Enter runs [handleChatSubmit]
    again: a second user entry is appended and a second call is issued
    while the first is still in flight. *)
Theorem enter_key_starts_second_request_while_pending :
  let w1 := run start [Connected; SlInputChat "a"; ClickSend] in
  let w2 := run w1 [SlInputChat "b"; KeyDown "Enter"] in
  loading (ui w1) = true
  /\ calls w1 = [ post "handle_triage_request" {[ "message" := VStr "a" ]} ]
  /\ run w1 [SlInputChat "b"; ClickSend] = run w1 [SlInputChat "b"]
  /\ calls w2 = [ post "handle_triage_request" {[ "message" := VStr "a" ]};
                  post "handle_triage_request" {[ "message" := VStr "b" ]} ]
  /\ chatHistory (ui w2) = [ {| role := user; content := VStr "a" |};
                             {| role := user; content := VStr "b" |} ]
  /\ length (inflight w2) = 2.
Proof. vm_compute. done. Qed.

(** C3.  When a request dispatched by either handler settles with a
    response body whose [status] is "success" and whose [response] is the
    string X, the transcript becomes the transcript stored at dispatch
    followed by exactly one assistant entry with content X, whatever the
    component state has become meanwhile; that entry is the last one. *)
Theorem success_appends_assistant_turn
    (h : State -> State * option (Call * Suspended))
    (s0 s1 s : State) (c : Call) (k : Suspended) (body : object) (X : string) :
  h = handleAnalyzeLogs \/ h = handleChatSubmit ->
  h s0 = (s1, Some (c, k)) ->
  body !! "status" = Some (VStr "success") ->
  body !! "response" = Some (VStr X) ->
  chatHistory (resume k (Resolved (VObj body)) s)
  = chatHistory s1 ++ [ {| role := assistant; content := VStr X |} ]
  /\ last (chatHistory (resume k (Resolved (VObj body)) s))
     = Some {| role := assistant; content := VStr X |}.
Proof.
  intros Hh Hd Hst Hre.
  destruct (dispatch_history h s0 s1 c k Hh Hd) as [-> _].
  assert (chatHistory (resume k (Resolved (VObj body)) s)
          = newHistory k ++ [ {| role := assistant; content := VStr X |} ])
    as ->.
  { unfold resume. simpl. rewrite (get_present _ _ _ Hst). simpl.
    by rewrite (get_present _ _ _ Hre). }
  split; [done|]. apply last_snoc.
Qed.

Lemma success_appends_assistant_turn_witness :
  let s0 := setChatInput "hi" (setFalcon true initial) in
  let hi := {| role := user; content := VStr "hi" |} in
  let s1 := {| falcon := true; logs := ""; chatInput := "";
               chatHistory := [hi]; loading := true; error := VNull |} in
  let k := {| handler := ChatSubmit; newHistory := [hi] |} in
  let body : object :=
    {[ "status" := VStr "success"; "response" := VStr "X" ]} in
  handleChatSubmit s0
  = (s1, Some (post "handle_triage_request" {[ "message" := VStr "hi" ]}, k))
  /\ chatHistory (resume k (Resolved (VObj body)) s1)
     = [ hi; {| role := assistant; content := VStr "X" |} ]
  /\ last (chatHistory (resume k (Resolved (VObj body)) s1))
     = Some {| role := assistant; content := VStr "X" |}.
Proof.
  intros s0 hi s1 k body. split; [reflexivity|].
  exact (success_appends_assistant_turn handleChatSubmit s0 s1 s1
           (post "handle_triage_request" {[ "message" := VStr "hi" ]})
           k body "X" (or_intror eq_refl) eq_refl eq_refl eq_refl).
Defined.

(** Every completion that takes the failure path of a handler is a Failure
    in the specification's classification. *)
Lemma failure_path_is_failure (r : Settled) :
  succeeded r = false -> Transport.completes_as_failure r = true.
Proof.
  destruct r as [response|]; [|done]. simpl. unfold Transport.well_formed.
  destruct (strict_eq_str (opt_member response "status") "success") eqn:Hs;
    [|done].
  by destruct response.
Qed.

(** C6, as stated, fails.  A body with the success marker and no analysis
    text is a Failure in the specification's classification, yet the chat
    request that receives it takes the success branch: an assistant entry
    with content [undefined] is appended and no error is recorded. *)
Lemma success_marker_without_text_appends_turn :
  let s0 := setChatInput "hi" (setFalcon true initial) in
  let hi := {| role := user; content := VStr "hi" |} in
  let s1 := {| falcon := true; logs := ""; chatInput := "";
               chatHistory := [hi]; loading := true; error := VNull |} in
  let k := {| handler := ChatSubmit; newHistory := [hi] |} in
  let r := Resolved (VObj {[ "status" := VStr "success" ]}) in
  handleChatSubmit s0
  = (s1, Some (post "handle_triage_request" {[ "message" := VStr "hi" ]}, k))
  /\ Transport.completes_as_failure r = true
  /\ chatHistory (resume k r s1)
     = [ hi; {| role := assistant; content := VUndefined |} ]
  /\ chatHistory (resume k r s1) <> chatHistory s1
  /\ error (resume k r s1) = VNull.
Proof. repeat split; try reflexivity. vm_compute. discriminate. Qed.

(** C6, amended.  When a request dispatched by either handler takes the
    failure path (the call throws, the response is falsy, or its [status]
    is not "success"), the completion records a failure reason and leaves
    the transcript exactly as it finds it, in whatever state it completes:
    no assistant entry is appended and no entry is removed.  If the
    transcript is still the one stored at dispatch, it remains so: the
    transcript found by the handler followed by the user entry.  Every
    response whose [status] is "success" takes the success branch instead,
    with or without analysis text: the transcript becomes the one stored at
    dispatch followed by an assistant entry whose content is the
    [response] property, [undefined] when there is none. *)
Theorem failure_path_keeps_transcript
    (h : State -> State * option (Call * Suspended))
    (s0 s1 s : State) (c : Call) (k : Suspended) (r : Settled) :
  h = handleAnalyzeLogs \/ h = handleChatSubmit ->
  h s0 = (s1, Some (c, k)) ->
  succeeded r = false ->
  Transport.completes_as_failure r = true
  /\ chatHistory (resume k r s) = chatHistory s
  /\ error (resume k r s) <> VNull
  /\ loading (resume k r s) = false
  /\ (chatHistory s = chatHistory s1 ->
      chatHistory (resume k r s) = chatHistory s1
      /\ exists content,
           chatHistory (resume k r s)
           = chatHistory s0 ++ [ {| role := user; content := content |} ])
  /\ (forall response,
        succeeded (Resolved response) = true ->
        chatHistory (resume k (Resolved response) s)
        = chatHistory s1
          ++ [ {| role := assistant;
                  content := opt_member response "response" |} ]
        /\ error (resume k (Resolved response) s) = error s).
Proof.
  intros Hh Hd Hr.
  destruct (dispatch_history h s0 s1 c k Hh Hd) as [H1 [u Hu]].
  assert (chatHistory (resume k r s) = chatHistory s) as Hframe.
  { unfold resume. destruct r as [response|]; simpl in *; [|done].
    by rewrite Hr. }
  split; [by apply failure_path_is_failure|].
  split; [exact Hframe|].
  split.
  { unfold resume. destruct r as [response|]; simpl in *; [|done].
    rewrite Hr. cbn [error setError setLoading]. unfold or_else.
    destruct (truthy (opt_member response "message")) eqn:Ht;
      [|discriminate].
    intros Hn. rewrite Hn in Ht. discriminate Ht. }
  split; [done|].
  split.
  { intros Hs. rewrite Hframe, Hs. split; [done|]. exists u. by rewrite H1. }
  intros response Hok. unfold resume. simpl in *. rewrite Hok. simpl.
  by rewrite H1.
Qed.

Lemma failure_path_keeps_transcript_witness :
  let s0 := setChatInput "hi" (setFalcon true initial) in
  let hi := {| role := user; content := VStr "hi" |} in
  let s1 := {| falcon := true; logs := ""; chatInput := "";
               chatHistory := [hi]; loading := true; error := VNull |} in
  let k := {| handler := ChatSubmit; newHistory := [hi] |} in
  let r := Resolved (VObj {[ "status" := VStr "error";
                             "message" := VStr "quota exceeded" ]}) in
  succeeded r = false
  /\ chatHistory (resume k r (setChatInput "next question" s1)) = [hi]
  /\ error (resume k r (setChatInput "next question" s1)) <> VNull.
Proof.
  intros s0 hi s1 k r. split; [reflexivity|].
  destruct (failure_path_keeps_transcript handleChatSubmit s0 s1
              (setChatInput "next question" s1)
              (post "handle_triage_request" {[ "message" := VStr "hi" ]})
              k r (or_intror eq_refl) eq_refl eq_refl)
    as (_ & Hc & He & _).
  split; [exact Hc|exact He].
Defined.

(** C7.  For every input made of white space only (the empty string
    included), typed in the chat box or in the log area of the page in any
    state: the handler returns at its guard, and a click on the button or
    the Enter key leaves the whole surface as it was, so no call is
    issued, no entry is appended and nothing is sent anywhere. *)
Theorem blank_input_is_rejected (w : World) (input : string) :
  whitespace_only input = true ->
  let wc := step w (SlInputChat input) in
  let wl := step w (SlInputLogs input) in
  handleChatSubmit (ui wc) = (ui wc, None)
  /\ step wc ClickSend = wc
  /\ step wc (KeyDown "Enter") = wc
  /\ handleAnalyzeLogs (ui wl) = (ui wl, None)
  /\ step wl ClickAnalyzeLogs = wl.
Proof.
  intros Hw wc wl.
  assert (blank (chatInput (ui wc)) = true) as Hc
    by (by rewrite blank_whitespace_only).
  assert (blank (logs (ui wl)) = true) as Hl
    by (by rewrite blank_whitespace_only).
  split; [by apply handleChatSubmit_blank|].
  split; [cbn [step]; by rewrite Hc, orb_true_r|].
  split; [cbn [step String.eqb]; simpl;
          by apply invoke_none, handleChatSubmit_blank|].
  split; [by apply handleAnalyzeLogs_blank|].
  cbn [step]. by rewrite Hl, orb_true_r.
Qed.

Lemma blank_input_is_rejected_witness :
  let input := String (ascii_of_nat 32) (String (ascii_of_nat 9) LF) in
  let w := run start [Connected] in
  whitespace_only input = true
  /\ calls (step (step w (SlInputChat input)) (KeyDown "Enter")) = []
  /\ chatHistory (ui (step (step w (SlInputChat input)) (KeyDown "Enter"))) = [].
Proof.
  split; [reflexivity|].
  destruct (blank_input_is_rejected (run start [Connected])
              (String (ascii_of_nat 32) (String (ascii_of_nat 9) LF))
              eq_refl) as (_ & _ & -> & _).
  split; reflexivity.
Defined.

End UiPageFacts.

(* ===================================================================== *)
(** ** The triage extension: summary block *)
(* ===================================================================== *)

Section UiExtensionFacts.

Import UiExtension.

Lemma sentinel_when_absent (d : object) (k sentinel : string) :
  d !! k = None -> get d k <||> VStr sentinel = VStr sentinel.
Proof. intros H. by rewrite (get_absent _ _ H). Qed.

(** C4.  Every record is rendered (the panel is returned, nothing is
    raised), and a summary field whose property is absent from the record
    shows the sentinel "Unknown"; the empty record shows "Unknown" for the
    name, the severity and the tactic. *)
Theorem absent_fields_show_Unknown (d : object) :
  render (Some d) = Panel (summary d)
  /\ (d !! "name" = None -> Detection (summary d) = VStr "Unknown")
  /\ (d !! "severity" = None -> Severity (summary d) = VStr "Unknown")
  /\ (d !! "tactic" = None -> Tactic (summary d) = VStr "Unknown")
  /\ render (Some ∅)
     = Panel {| Detection := VStr "Unknown"; Severity := VStr "Unknown";
                Tactic := VStr "Unknown" |}.
Proof.
  split; [reflexivity|].
  repeat split; try (intros H; simpl; by apply sentinel_when_absent).
Qed.

Lemma absent_fields_show_Unknown_witness :
  let d : object := {[ "severity" := VStr "high" ]} in
  summary d = {| Detection := VStr "Unknown"; Severity := VStr "high";
                 Tactic := VStr "Unknown" |}.
Proof.
  intros d.
  destruct (absent_fields_show_Unknown d) as (_ & Hn & _ & Ht & _).
  specialize (Hn eq_refl). specialize (Ht eq_refl).
  unfold summary in *. simpl in *. by rewrite Hn, Ht.
Defined.

End UiExtensionFacts.

(* ===================================================================== *)
(** ** The Azure analyst panel *)
(* ===================================================================== *)

Section AzureAnalystAppFacts.

Import AzureAnalystApp Normalizer Coordinator.

Lemma declared_string_cases (d : object) (k : string) :
  declared_string d k ->
  match present d k with
  | Some s => get d k = VStr s /\ truthy (get d k) = true
  | None => truthy (get d k) = false
  end.
Proof.
  unfold declared_string, present, get.
  destruct (d !! k) as [[| | | |s| |]|]; simpl; try done.
  destruct (String.eqb s ""); done.
Qed.

(** Without any assumption on the record, the host name is the first
    truthy value among the three properties, in source order. *)
Lemma getHostName_first_truthy (d : object) :
  getHostName (Some d)
  = if truthy (get d "hostname") then get d "hostname"
    else if truthy (get d "host_name") then get d "host_name"
    else if truthy (get d "device_name") then get d "device_name"
    else VStr "Unknown Device".
Proof.
  unfold getHostName, or_else. simpl.
  destruct (truthy (get d "hostname")) eqn:H1; rewrite ?H1; [done|].
  destruct (truthy (get d "host_name")) eqn:H2; rewrite ?H2; [done|].
  destruct (truthy (get d "device_name")) eqn:H3; rewrite ?H3; done.
Qed.

(** With no record at all the sentinels are shown. *)
Lemma getHostName_null : getHostName None = VStr "Unknown Device".
Proof. reflexivity. Qed.

(** The name of this panel falls back to its own sentinel. *)
Lemma getDetectionName_absent (d : object) :
  d !! "name" = None -> d !! "detection_name" = None ->
  getDetectionName (Some d) = VStr "Unknown Detection".
Proof.
  intros H1 H2. unfold getDetectionName. simpl.
  by rewrite (get_absent _ _ H1), (get_absent _ _ H2).
Qed.

(** C5.  For every record whose three host properties have their declared
    type (a string when present), [getHostName] is the value of the first
    present, non-empty alias in the order hostname, host_name,
    device_name, and the sentinel "Unknown Device" when there is none. *)
Theorem getHostName_alias_order (d : object) :
  declared_string d "hostname" ->
  declared_string d "host_name" ->
  declared_string d "device_name" ->
  getHostName (Some d)
  = resolve d ["hostname"; "host_name"; "device_name"] "Unknown Device".
Proof.
  intros H1 H2 H3. rewrite getHostName_first_truthy.
  apply declared_string_cases in H1, H2, H3.
  unfold resolve. simpl.
  destruct (present d "hostname"); [destruct H1 as [-> ->]; done|rewrite H1].
  destruct (present d "host_name"); [destruct H2 as [-> ->]; done|rewrite H2].
  destruct (present d "device_name"); [destruct H3 as [-> ->]; done|rewrite H3].
  done.
Qed.

Lemma getHostName_alias_order_witness :
  getHostName (Some {[ "hostname" := VStr ""; "device_name" := VStr "LAPTOP-7";
                       "host_name" := VStr "srv-01" ]})
  = VStr "srv-01".
Proof.
  exact (getHostName_alias_order
           {[ "hostname" := VStr ""; "device_name" := VStr "LAPTOP-7";
              "host_name" := VStr "srv-01" ]} I I I).
Defined.

End AzureAnalystAppFacts.

Section AzureAnalystRequestFacts.

Import AzureAnalystApp Coordinator.

Lemma or_else_not_null (a : value) (text : string) : a <||> VStr text <> VNull.
Proof. unfold or_else. destruct a; simpl; try done; by case_match. Qed.

(** A failed completion only writes [error] and [isLoading]. *)
Lemma resume_failure (o : FetchOutcome) (s : State) :
  succeeded o = false ->
  exists text,
    text <> VNull
    /\ resume o s = setIsLoading false (setError text s).
Proof.
  intros Hf. unfold resume, try_body, catch.
  destruct o as [err|status json]; simpl in *.
  { eexists; split; [|reflexivity]. done. }
  destruct (ok status); simpl in *;
    [|eexists; split; [|reflexivity]; done].
  destruct json as [err|result];
    [eexists; split; [|reflexivity]; done|].
  destruct (member result "status") as [status'|];
    [|eexists; split; [|reflexivity]; done].
  rewrite Hf. eexists; split; [|reflexivity]. apply or_else_not_null.
Qed.

(** The buttons of the panel are dropped while a request is pending. *)
Lemma buttons_disabled_while_isLoading (w : World) :
  isLoading (ui w) = true ->
  step w ClickAnalyze = w /\ step w ClickReanalyze = w.
Proof. simpl. intros ->. by rewrite !orb_true_r. Qed.

(** C2, as stated, fails.  A request is started for a first record, a
    second record arrives and resets the panel, then the request settles
    successfully: its result is stored and shown under the second
    record. *)
Lemma stale_result_is_shown :
  let first : object := {[ "name" := VStr "first" ]} in
  let second : object := {[ "name" := VStr "second" ]} in
  let result := VObj {[ "status" := VStr "success";
                        "analysis" := VStr "about first" ]} in
  let o := FetchResponse 200 (JsonValue result) in
  let pending := run start [Data first; ClickAnalyze] in
  let final := run pending [Data second; Settle o] in
  isLoading (ui pending) = true
  /\ detectionData (ui final) = Some second
  /\ analysisResult (ui final) = result
  /\ ~ discards_stale_result (ui pending) second o.
Proof.
  repeat split; try reflexivity.
  intros [H _]. vm_compute in H. discriminate H.
Qed.

(** C2, amended.  A new record arriving while a request is in flight
    replaces the record and clears result and error, but neither cancels
    the request nor marks it: when the request then settles with a 2xx
    response whose body has [status] "success", that body becomes the
    displayed result while the new record stays displayed; when it fails,
    its error is shown under the new record. *)
Theorem late_result_applied_after_reset
    (w : World) (newRecord result : object) (status : nat) :
  0 < inflight w ->
  ok status = true ->
  result !! "status" = Some (VStr "success") ->
  let reset := step w (Data newRecord) in
  let final := step reset (Settle (FetchResponse status (JsonValue (VObj result)))) in
  inflight reset = inflight w
  /\ analysisResult (ui reset) = VNull
  /\ detectionData (ui final) = Some newRecord
  /\ analysisResult (ui final) = VObj result
  /\ error (ui final) = VNull
  /\ isLoading (ui final) = false
  /\ forall o, succeeded o = false ->
       detectionData (ui (step reset (Settle o))) = Some newRecord
       /\ error (ui (step reset (Settle o))) <> VNull.
Proof.
  intros Hin Hok Hst. cbn zeta. cbn [step inflight ui calls].
  destruct (inflight w) as [|n]; [lia|]. cbn [ui].
  assert (resume (FetchResponse status (JsonValue (VObj result)))
            (onData newRecord (ui w))
          = setIsLoading false
              (setAnalysisResult (VObj result) (onData newRecord (ui w))))
    as ->.
  { unfold resume, try_body. rewrite Hok. simpl.
    by rewrite (get_present _ _ _ Hst). }
  do 6 (split; [done|]).
  intros o Hf.
  by destruct (resume_failure o (onData newRecord (ui w)) Hf)
    as (text & Hne & ->).
Qed.

Lemma late_result_applied_after_reset_witness :
  let first : object := {[ "name" := VStr "first" ]} in
  let second : object := {[ "name" := VStr "second" ]} in
  let result : object := {[ "status" := VStr "success";
                            "analysis" := VStr "about first" ]} in
  let w := run start [Data first; ClickAnalyze] in
  let reset := step w (Data second) in
  let final := step reset (Settle (FetchResponse 200 (JsonValue (VObj result)))) in
  inflight reset = inflight w
  /\ analysisResult (ui reset) = VNull
  /\ detectionData (ui final) = Some second
  /\ analysisResult (ui final) = VObj result
  /\ error (ui final) = VNull
  /\ isLoading (ui final) = false
  /\ forall o, succeeded o = false ->
       detectionData (ui (step reset (Settle o))) = Some second
       /\ error (ui (step reset (Settle o))) <> VNull.
Proof.
  intros first second result w.
  exact (late_result_applied_after_reset w second result 200
           (le_n 1) eq_refl eq_refl).
Defined.

(** C8, as stated, fails.  On HTTP 429 with a body that carries a
    [message], the text shown is built from the status code and the body
    is not read. *)
Lemma http_429_body_message_not_shown :
  let json := JsonValue (VObj {[ "status" := VStr "error";
                                 "message" := VStr "rate limited" ]}) in
  let pending := run start [Data ∅; ClickAnalyze] in
  let final := step pending (Settle (FetchResponse 429 json)) in
  body_message_or "Analysis failed" json = VStr "rate limited"
  /\ error (ui final) = VStr "HTTP error! status: 429"
  /\ error (ui final) <> body_message_or "Analysis failed" json.
Proof. repeat split; try reflexivity. vm_compute. discriminate. Qed.

(** C8, amended.  For every completion with a status outside 200..299
    the request ends in the error state: [isLoading] is cleared and the
    text shown is "HTTP error! status: " followed by the status code in
    decimal, whatever the response body holds; nothing else changes.  The
    rule "the [message] field of the body if truthy, else a fallback" gives
    the text shown for a response that was read and whose [status] is not
    "success": a 2xx response of this panel (fallback 'Analysis failed'),
    and a response handed to the page by its client, which hides the HTTP
    status (fallback 'Analysis failed.' or 'Chat failed.'). *)
Theorem non_2xx_shows_status_code
    (s : State) (status : nat) (json : JsonOutcome) :
  ok status = false ->
  resume (FetchResponse status json) s
  = setIsLoading false
      (setError (VStr ("HTTP error! status: " +:+ pretty status)) s)
  /\ succeeded (FetchResponse status json) = false
  /\ (forall (status2 : nat) (result status' : value),
        ok status2 = true ->
        member result "status" = Some status' ->
        strict_eq_str status' "success" = false ->
        resume (FetchResponse status2 (JsonValue result)) s
        = setIsLoading false
            (setError (opt_member result "message" <||> VStr "Analysis failed") s))
  /\ (forall (k : UiPage.Suspended) (response : value) (p : UiPage.State),
        UiPage.succeeded (UiPage.Resolved response) = false ->
        UiPage.resume k (UiPage.Resolved response) p
        = UiPage.setLoading false
            (UiPage.setError
               (opt_member response "message"
                <||> VStr (UiPage.fallback (UiPage.handler k))) p)).
Proof.
  intros Hok. split; [|split; [|split]].
  - unfold resume, try_body. rewrite Hok. reflexivity.
  - simpl. rewrite Hok. by destruct json.
  - intros status2 result status' Hok2 Hm Hne.
    unfold resume, try_body. rewrite Hok2, Hm, Hne. reflexivity.
  - intros k response p Hf. unfold UiPage.resume.
    simpl in Hf. rewrite Hf. reflexivity.
Qed.

Lemma non_2xx_shows_status_code_witness :
  let s := {| detectionData := Some ∅; isLoading := true;
              analysisResult := VNull; error := VNull |} in
  let json := JsonValue (VObj {[ "message" := VStr "rate limited" ]}) in
  ok 429 = false
  /\ resume (FetchResponse 429 json) s
     = {| detectionData := Some ∅; isLoading := false;
          analysisResult := VNull;
          error := VStr "HTTP error! status: 429" |}.
Proof.
  intros s json. split; [reflexivity|].
  exact (proj1 (non_2xx_shows_status_code s 429 json eq_refl)).
Defined.

(** C10.  On a panel that shows a record and a result, with no request
    pending, Re-analyze clears the result and issues the request; if the
    request then fails (network error, status outside 200..299,
    unreadable body, or a body whose [status] is not "success") the
    result stays cleared: the panel holds an error and no analysis. *)
Theorem failed_reanalysis_drops_previous_result
    (w : World) (d : object) (o : FetchOutcome) :
  detectionData (ui w) = Some d ->
  truthy (analysisResult (ui w)) = true ->
  isLoading (ui w) = false ->
  succeeded o = false ->
  let pending := step w ClickReanalyze in
  let final := step pending (Settle o) in
  analysisResult (ui pending) = VNull
  /\ calls pending = calls w ++ [ fetch "/api/functions/azure_analyzer" d ]
  /\ analysisResult (ui final) = VNull
  /\ error (ui final) <> VNull
  /\ isLoading (ui final) = false.
Proof.
  intros Hd Hr Hl Hf pending final.
  set (cleared := setAnalysisResult VNull
                    (setError VNull (setIsLoading true (ui w)))).
  assert (pending
          = {| ui := cleared; inflight := S (inflight w);
               calls := calls w ++ [ fetch "/api/functions/azure_analyzer" d ] |})
    as Hp.
  { unfold pending. cbn [step]. rewrite Hr, Hl. cbn [negb orb].
    unfold invoke, handleAnalyzeClick. rewrite Hd. reflexivity. }
  unfold final. rewrite Hp. cbn [step inflight ui calls].
  destruct (resume_failure o cleared Hf) as (text & Hne & ->).
  simpl. done.
Qed.

Lemma failed_reanalysis_drops_previous_result_witness :
  let d : object := {[ "name" := VStr "first" ]} in
  let previous := VObj {[ "status" := VStr "success";
                          "analysis" := VStr "verdict" ]} in
  let w := {| ui := {| detectionData := Some d; isLoading := false;
                       analysisResult := previous; error := VNull |};
              inflight := 0; calls := [] |} in
  let final := run w [ClickReanalyze; Settle (FetchResponse 503 (JsonRejected NotAnError))] in
  analysisResult (ui final) = VNull
  /\ error (ui final) <> VNull
  /\ isLoading (ui final) = false.
Proof.
  intros d previous w.
  exact (proj2 (proj2 (failed_reanalysis_drops_previous_result w d
           (FetchResponse 503 (JsonRejected NotAnError))
           eq_refl eq_refl eq_refl eq_refl))).
Defined.

End AzureAnalystRequestFacts.

(* ===================================================================== *)
(** ** The Azure analyst extension: the remote procedure call *)
(* ===================================================================== *)

Section AzureAnalystExtensionFacts.

Import AzureAnalystExtension.

Lemma truthy_get (d : object) (k : string) :
  truthy (get d k) = true <-> exists v, d !! k = Some v /\ truthy v = true.
Proof.
  unfold get. destruct (d !! k) as [v|]; simpl.
  - split; [eauto|]. by intros (? & [= <-] & ?).
  - split; [done|]. by intros (? & ? & ?).
Qed.

(** C9.  For every record held by the extension, [handleAnalyze] calls
    [azure_analyzer] with an argument of exactly two properties: [type],
    which is "incident" exactly when the record has an [incident_id] with
    a truthy value and "detection" otherwise, and [data], which is the
    record itself. *)
Theorem azure_analyzer_argument (s : State) (d : object) :
  data s = Some d ->
  exists s' argument,
    handleAnalyze s = (s', Some (execute "azure_analyzer" argument))
    /\ data s' = Some d
    /\ argument !! "data" = Some (VObj d)
    /\ dom argument = {[ "type"; "data" ]}
    /\ (argument !! "type" = Some (VStr "incident")
        \/ argument !! "type" = Some (VStr "detection"))
    /\ (argument !! "type" = Some (VStr "incident")
        <-> exists v, d !! "incident_id" = Some v /\ truthy v = true).
Proof.
  intros Hd. unfold handleAnalyze. rewrite Hd.
  eexists _, _. split; [reflexivity|]. simpl. split; [done|].
  unfold argument_of. rewrite <- truthy_get.
  split; [by simplify_map_eq|].
  split; [rewrite !dom_insert_L; set_solver|].
  destruct (truthy (get d "incident_id")); simplify_map_eq;
    (split; [auto|]); split; done.
Qed.

Lemma azure_analyzer_argument_witness :
  let incident : object := {[ "id" := VStr "inc:1"; "incident_id" := VStr "inc:1" ]} in
  let s := {| data := Some incident; analysis := VNull; loading := false;
              error := VNull |} in
  exists s' argument,
    handleAnalyze s = (s', Some (execute "azure_analyzer" argument))
    /\ data s' = Some incident
    /\ argument !! "data" = Some (VObj incident)
    /\ dom argument = {[ "type"; "data" ]}
    /\ (argument !! "type" = Some (VStr "incident")
        \/ argument !! "type" = Some (VStr "detection"))
    /\ (argument !! "type" = Some (VStr "incident")
        <-> exists v, incident !! "incident_id" = Some v /\ truthy v = true).
Proof.
  intros incident s. exact (azure_analyzer_argument s incident eq_refl).
Defined.

End AzureAnalystExtensionFacts.

(* ===================================================================== *)
(** ** The standalone page: traces *)
(* ===================================================================== *)

Section UiPageTraces.

Import UiPage.

Lemma run_app (w : World) (es es' : list Event) :
  run w (es ++ es') = run (run w es) es'.
Proof. apply foldl_app. Qed.

Lemma single_flight_unchanged (w w' : World) :
  inflight w' = inflight w ->
  loading (ui w') = loading (ui w) ->
  chatHistory (ui w') = chatHistory (ui w) ->
  single_flight w ->
  single_flight w' /\ chatHistory (ui w) `prefix_of` chatHistory (ui w').
Proof.
  unfold single_flight. intros -> -> ->. done.
Qed.

Lemma single_flight_invoke
    (h : State -> State * option (Call * Suspended)) (w : World) :
  h = handleAnalyzeLogs \/ h = handleChatSubmit ->
  loading (ui w) = false ->
  single_flight w ->
  single_flight (invoke h w)
  /\ chatHistory (ui w) `prefix_of` chatHistory (ui (invoke h w)).
Proof.
  intros Hh Hl Hw.
  assert (inflight w = []) as Hi.
  { unfold single_flight in Hw. destruct (inflight w) as [|k [|]]; [done| |done].
    destruct Hw as [Hw _]. congruence. }
  unfold invoke.
  destruct (h (ui w)) as [s' [[c k]|]] eqn:Hd.
  - destruct (dispatch_history h (ui w) s' c k Hh Hd) as [H1 [u Hu]].
    unfold single_flight. simpl. rewrite Hi. simpl.
    split; [split; [|done]|].
    + destruct Hh as [-> | ->]; unfold handleAnalyzeLogs, handleChatSubmit in Hd;
        case_match; by simplify_eq.
    + rewrite H1, Hu. by apply prefix_app_r.
  - assert (s' = ui w) as ->.
    { destruct Hh as [-> | ->]; unfold handleAnalyzeLogs, handleChatSubmit in Hd;
        case_match; by simplify_eq. }
    by apply single_flight_unchanged.
Qed.

Lemma single_flight_step (w : World) (e : Event) :
  enter_key e = false ->
  single_flight w ->
  single_flight (step w e)
  /\ chatHistory (ui w) `prefix_of` chatHistory (ui (step w e)).
Proof.
  intros He Hw.
  destruct e as [| |v|v| | |key|i r]; cbn [step];
    try (by apply single_flight_unchanged).
  - destruct (loading (ui w)) eqn:Hl; cbn [orb]; [done|].
    case_match; [done|]. apply single_flight_invoke; auto.
  - destruct (loading (ui w)) eqn:Hl; cbn [orb]; [done|].
    case_match; [done|]. apply single_flight_invoke; auto.
  - simpl in He. by rewrite He.
  - destruct w as [s fl cs]. unfold single_flight in *. simpl in *.
    destruct fl as [|k [|k' fl]]; [by destruct i| |done].
    destruct Hw as [Hl Hk]. destruct i as [|i]; simpl; [|done].
    split; [done|]. unfold resume.
    destruct r as [response|]; simpl; [|done].
    case_match; simpl; [|done]. rewrite Hk. by apply prefix_app_r.
Qed.

Lemma single_flight_run (w : World) (es : list Event) :
  forallb (fun e => negb (enter_key e)) es = true ->
  single_flight w ->
  single_flight (run w es)
  /\ chatHistory (ui w) `prefix_of` chatHistory (ui (run w es)).
Proof.
  revert w. induction es as [|e es IH]; intros w Hes Hw; simpl in *; [done|].
  apply andb_true_iff in Hes as [He Hes]. apply negb_true_iff in He.
  destruct (single_flight_step w e He Hw) as [Hw' Hp].
  destruct (IH (step w e) Hes Hw') as [Hr Hp'].
  split; [exact Hr|]. by etrans.
Qed.

(** X1.  On the page, as long as the Enter key is not used to submit, at
    most one request is in flight in every reachable state, and [loading]
    is set exactly while one is. *)
Theorem page_buttons_single_flight (es : list Event) :
  forallb (fun e => negb (enter_key e)) es = true ->
  length (inflight (run start es)) <= 1
  /\ (loading (ui (run start es)) = true
      <-> length (inflight (run start es)) = 1).
Proof.
  intros Hes.
  destruct (single_flight_run start es Hes) as [H _]; [done|].
  unfold single_flight in H.
  destruct (inflight (run start es)) as [|k [|k' fl]]; simpl; [| |done].
  - rewrite H. split; [lia|]. split; [done|lia].
  - destruct H as [-> _]. split; [lia|]. done.
Qed.

Lemma page_buttons_single_flight_witness :
  let es := [Connected; SlInputChat "a"; ClickSend; SlInputChat "b";
             ClickSend; ClickAnalyzeLogs; KeyDown "Tab"] in
  length (inflight (run start es)) <= 1
  /\ (loading (ui (run start es)) = true
      <-> length (inflight (run start es)) = 1).
Proof. intros es. exact (page_buttons_single_flight es eq_refl). Defined.

(** X2.  On the page, as long as the Enter key is not used to submit, the
    transcript is append-only: along any run, the transcript reached
    earlier is a prefix of the transcript reached later. *)
Theorem page_transcript_append_only (es es' : list Event) :
  forallb (fun e => negb (enter_key e)) (es ++ es') = true ->
  chatHistory (ui (run start es))
  `prefix_of` chatHistory (ui (run start (es ++ es'))).
Proof.
  intros Hes. rewrite forallb_app in Hes.
  apply andb_true_iff in Hes as [H1 H2].
  rewrite run_app.
  destruct (single_flight_run start es H1) as [Hw _]; [done|].
  by destruct (single_flight_run (run start es) es' H2 Hw) as [_ Hp].
Qed.

Lemma page_transcript_append_only_witness :
  let es := [Connected; SlInputChat "a"; ClickSend] in
  let es' := [Settle 0 (Resolved (VObj {[ "status" := VStr "success";
                                          "response" := VStr "X" ]}));
              SlInputLogs "log line"; ClickAnalyzeLogs; Settle 0 Rejected] in
  chatHistory (ui (run start es))
  `prefix_of` chatHistory (ui (run start (es ++ es'))).
Proof.
  intros es es'. exact (page_transcript_append_only es es' eq_refl).
Defined.

(** X3.  Pressing Enter twice in a row submits at most once: the first
    submission empties the chat box, so the second press finds a blank
    input and changes nothing. *)
Theorem enter_twice_submits_once (w : World) :
  step (step w (KeyDown "Enter")) (KeyDown "Enter") = step w (KeyDown "Enter").
Proof.
  change (step w (KeyDown "Enter")) with (invoke handleChatSubmit w).
  set (w1 := invoke handleChatSubmit w).
  change (step w1 (KeyDown "Enter")) with (invoke handleChatSubmit w1).
  apply invoke_none.
  assert (negb (falcon (ui w1)) || blank (chatInput (ui w1)) = true) as Hg1.
  { unfold w1, invoke, handleChatSubmit.
    destruct (negb (falcon (ui w)) || blank (chatInput (ui w))) eqn:Hg;
      simpl; [exact Hg|apply orb_true_r]. }
  unfold handleChatSubmit. by rewrite Hg1.
Qed.

(** X4.  Overlapping chat requests lose entries.  When a message [a] is
    submitted with Enter and a message [b] is submitted with Enter before
    the first call settles, the transcript shows both user entries; when the
    first call then succeeds with text X, the transcript is rebuilt from
    what the first handler captured: it ends with the user entry [a] and
    the assistant entry X, and the user entry [b] is gone although its
    request is still in flight. *)
Theorem overlapping_success_drops_later_entry
    (w : World) (a b X : string) :
  falcon (ui w) = true ->
  blank a = false ->
  blank b = false ->
  let w2 := run w [SlInputChat a; KeyDown "Enter";
                   SlInputChat b; KeyDown "Enter"] in
  let response :=
    VObj {[ "status" := VStr "success"; "response" := VStr X ]} in
  let w3 := step w2 (Settle (length (inflight w)) (Resolved response)) in
  chatHistory (ui w2)
  = chatHistory (ui w) ++ [ {| role := user; content := VStr a |};
                            {| role := user; content := VStr b |} ]
  /\ chatHistory (ui w3)
     = chatHistory (ui w) ++ [ {| role := user; content := VStr a |};
                               {| role := assistant; content := VStr X |} ]
  /\ length (inflight w3) = S (length (inflight w)).
Proof.
  intros Hf Ha Hb. destruct w as [s fl cs]. simpl in *.
  unfold invoke, handleChatSubmit. simpl. rewrite Hf, Ha. simpl.
  rewrite Hf, Hb. simpl.
  split; [by rewrite <- app_assoc|].
  rewrite lookup_app_l by (rewrite length_app; simpl; lia).
  rewrite list_lookup_middle by done. simpl.
  split; [by rewrite <- app_assoc|].
  rewrite length_delete.
  - rewrite !length_app. simpl. lia.
  - rewrite lookup_app_l by (rewrite length_app; simpl; lia).
    by rewrite list_lookup_middle.
Qed.

Lemma overlapping_success_drops_later_entry_witness :
  let w := run start [Connected] in
  let w2 := run w [SlInputChat "a"; KeyDown "Enter";
                   SlInputChat "b"; KeyDown "Enter"] in
  let response :=
    VObj {[ "status" := VStr "success"; "response" := VStr "X" ]} in
  let w3 := step w2 (Settle 0 (Resolved response)) in
  chatHistory (ui w2)
  = [ {| role := user; content := VStr "a" |};
      {| role := user; content := VStr "b" |} ]
  /\ chatHistory (ui w3)
     = [ {| role := user; content := VStr "a" |};
         {| role := assistant; content := VStr "X" |} ]
  /\ length (inflight w3) = 1.
Proof.
  intros w.
  exact (overlapping_success_drops_later_entry w "a" "b" "X"
           eq_refl eq_refl eq_refl).
Defined.

Lemma not_connected_step (w : World) (e : Event) :
  connects e = false ->
  falcon (ui w) = false /\ calls w = [] /\ inflight w = []
  /\ chatHistory (ui w) = [] /\ loading (ui w) = false ->
  falcon (ui (step w e)) = false /\ calls (step w e) = []
  /\ inflight (step w e) = [] /\ chatHistory (ui (step w e)) = []
  /\ loading (ui (step w e)) = false.
Proof.
  intros He (Hf & Hc & Hi & Hh & Hl). destruct w as [s fl cs]. simpl in *.
  subst. destruct e as [| |v|v| | |key|i r]; simpl in *; try done.
  - rewrite Hl. simpl. case_match; [done|].
    unfold invoke, handleAnalyzeLogs. simpl. by rewrite Hf.
  - rewrite Hl. simpl. case_match; [done|].
    unfold invoke, handleChatSubmit. simpl. by rewrite Hf.
  - case_match; [|done].
    unfold invoke, handleChatSubmit. simpl. by rewrite Hf.
Qed.

(** X5.  Until the client has connected, the page sends nothing: whatever
    is typed, clicked or pressed, no call is issued, the transcript stays
    empty and the page never enters the loading state. *)
Theorem page_sends_nothing_before_connect (es : list Event) :
  forallb (fun e => negb (connects e)) es = true ->
  calls (run start es) = []
  /\ inflight (run start es) = []
  /\ chatHistory (ui (run start es)) = []
  /\ loading (ui (run start es)) = false.
Proof.
  intros Hes.
  enough (forall w,
             falcon (ui w) = false /\ calls w = [] /\ inflight w = []
             /\ chatHistory (ui w) = [] /\ loading (ui w) = false ->
             falcon (ui (run w es)) = false /\ calls (run w es) = []
             /\ inflight (run w es) = [] /\ chatHistory (ui (run w es)) = []
             /\ loading (ui (run w es)) = false) as H.
  { by destruct (H start) as (_ & ? & ? & ? & ?). }
  induction es as [|e es IH]; intros w Hw; simpl in *; [done|].
  apply andb_true_iff in Hes as [He Hes]. apply negb_true_iff in He.
  apply IH; [done|]. by apply not_connected_step.
Qed.

Lemma page_sends_nothing_before_connect_witness :
  let es := [ConnectFailed; SlInputChat "hello"; ClickSend; KeyDown "Enter";
             SlInputLogs "log"; ClickAnalyzeLogs] in
  calls (run start es) = []
  /\ inflight (run start es) = []
  /\ chatHistory (ui (run start es)) = []
  /\ loading (ui (run start es)) = false.
Proof.
  intros es. exact (page_sends_nothing_before_connect es eq_refl).
Defined.

(** X6.  [handleChatSubmit] issues a call exactly when the client is
    connected and the chat box holds a character that is not white space;
    it then sends the text as typed (not trimmed), empties the chat box,
    sets [loading] and clears the error, and leaves the log area alone. *)
Theorem chat_dispatch_condition (s : State) :
  (snd (handleChatSubmit s) = None
   <-> falcon s = false \/ whitespace_only (chatInput s) = true)
  /\ forall s' c k,
       handleChatSubmit s = (s', Some (c, k)) ->
       c = post "handle_triage_request" {[ "message" := VStr (chatInput s) ]}
       /\ chatInput s' = "" /\ logs s' = logs s
       /\ loading s' = true /\ error s' = VNull.
Proof.
  unfold handleChatSubmit. rewrite <- blank_whitespace_only.
  destruct (falcon s), (blank (chatInput s)); simpl; split;
    try (split; [intros; auto | by intros]);
    try (split; [done | intros [|]; done]);
    try done.
  intros s' c k [= <- <- <-]. done.
Qed.

Lemma chat_dispatch_condition_witness :
  let s := setChatInput "  why is this host flagged? " (setFalcon true initial) in
  snd (handleChatSubmit s)
  = Some (post "handle_triage_request"
            {[ "message" := VStr "  why is this host flagged? " ]},
          {| handler := ChatSubmit;
             newHistory := [ {| role := user;
                                content := VStr "  why is this host flagged? " |} ] |})
  /\ chatInput (fst (handleChatSubmit s)) = "".
Proof.
  intros s. split; [reflexivity|].
  destruct (chat_dispatch_condition s) as [_ H].
  exact (proj1 (proj2 (H _ _ _ eq_refl))).
Defined.

End UiPageTraces.

(* ===================================================================== *)
(** ** The Azure analyst panel: traces and rendering *)
(* ===================================================================== *)

Section AzureAnalystAppTraces.

Import AzureAnalystApp Normalizer.



(** What every reachable state of the panel satisfies. *)
Lemma panel_invariant (es : list Event) :
  match inflight (run start es) with
  | 0 =>
      isLoading (ui (run start es)) = false
      /\ (error (ui (run start es)) = VNull
          \/ analysisResult (ui (run start es)) = VNull)
      /\ (detectionData (ui (run start es)) = None ->
          analysisResult (ui (run start es)) = VNull)
  | 1 =>
      isLoading (ui (run start es)) = true
      /\ error (ui (run start es)) = VNull
      /\ analysisResult (ui (run start es)) = VNull
      /\ detectionData (ui (run start es)) <> None
  | _ => False
  end.
Proof.
  induction es as [|e es IH] using rev_ind; [simpl; auto|].
  unfold run in *. rewrite foldl_app. simpl.
  destruct (foldl step start es) as [s n cs]. simpl in *.
  destruct n as [|[|n]]; [| |done].
  - destruct IH as (Hl & He & Hd).
    destruct e as [d| | |o]; simpl; [auto| | |auto].
    + case_bool_decide as Hn; simpl; [by auto|]. rewrite Hl. simpl.
      unfold invoke, handleAnalyzeClick. simpl.
      destruct (detectionData s) eqn:Hs; [simpl; by rewrite Hs|done].
    + destruct (truthy (analysisResult s)) eqn:Ht; simpl; [|by auto].
      rewrite Hl. simpl. unfold invoke, handleAnalyzeClick. simpl.
      destruct (detectionData s) eqn:Hs; [simpl; by rewrite Hs|].
      rewrite Hd in Ht; done.
  - destruct IH as (Hl & He & Hr & Hd).
    destruct e as [d| | |o]; [simpl..|cbn [step inflight ui calls]].
    + done.
    + rewrite Hl, orb_true_r. simpl. done.
    + rewrite Hl, orb_true_r. simpl. done.
    + destruct (succeeded o) eqn:Ho.
      * destruct o as [err|status [err|result]]; simpl in Ho; try done.
        apply andb_true_iff in Ho as [Hok Hst].
        unfold resume, try_body. rewrite Hok. simpl.
        destruct (member result "status") as [st|]; [|done].
        rewrite Hst. simpl. naive_solver.
      * destruct (resume_failure o s Ho) as (text & Hne & ->). simpl.
        naive_solver.
Qed.

(** X7.  On the Azure analyst panel at most one request is in flight in
    every reachable state, and [isLoading] is set exactly while one is. *)
Theorem panel_single_flight (es : list Event) :
  inflight (run start es) <= 1
  /\ (isLoading (ui (run start es)) = true <-> inflight (run start es) = 1).
Proof.
  pose proof (panel_invariant es) as H.
  destruct (inflight (run start es)) as [|[|n]]; [| |done].
  - destruct H as (-> & _). split; [lia|]. done.
  - destruct H as (-> & _). split; [lia|]. done.
Qed.

(** X8.  In every reachable state of the Azure analyst panel an error and
    an analysis result are never held together, and while a request is
    pending the panel holds neither. *)
Theorem panel_error_or_result (es : list Event) :
  (error (ui (run start es)) = VNull
   \/ analysisResult (ui (run start es)) = VNull)
  /\ (isLoading (ui (run start es)) = true ->
      error (ui (run start es)) = VNull
      /\ analysisResult (ui (run start es)) = VNull).
Proof.
  pose proof (panel_invariant es) as H.
  destruct (inflight (run start es)) as [|[|n]]; [| |done].
  - destruct H as (-> & H & _). split; [done|]. done.
  - destruct H as (_ & -> & -> & _). split; [by left|]. done.
Qed.





(** X10.  For every record whose [name] and [detection_name] have their
    declared type (a string when present), [getDetectionName] is the value
    of the first present, non-empty alias in the order name,
    detection_name, and the sentinel "Unknown Detection" when there is
    none; with no record at all it is the sentinel. *)
Theorem getDetectionName_alias_order (d : object) :
  declared_string d "name" ->
  declared_string d "detection_name" ->
  getDetectionName (Some d)
  = resolve d ["name"; "detection_name"] "Unknown Detection"
  /\ getDetectionName None = VStr "Unknown Detection".
Proof.
  intros H1 H2. split; [|reflexivity].
  apply declared_string_cases in H1, H2.
  unfold getDetectionName, resolve. cbn [opt_get first_present].
  destruct (present d "name") as [s|].
  { destruct H1 as [H1 H1'].
    rewrite (or_else_truthy _ _ H1'), (or_else_truthy _ _ H1'). exact H1. }
  rewrite (or_else_falsy _ _ H1).
  destruct (present d "detection_name") as [s|].
  { destruct H2 as [H2 H2']. rewrite (or_else_truthy _ _ H2'). exact H2. }
  by rewrite (or_else_falsy _ _ H2).
Qed.

Lemma getDetectionName_alias_order_witness :
  getDetectionName (Some {[ "detection_name" := VStr "Credential dumping";
                            "severity" := VNum 70 ]})
  = VStr "Credential dumping".
Proof.
  exact (proj1 (getDetectionName_alias_order
                  {[ "detection_name" := VStr "Credential dumping";
                     "severity" := VNum 70 ]} I I)).
Defined.

End AzureAnalystAppTraces.

(* ===================================================================== *)
(** ** Rendering of the analysis text *)
(* ===================================================================== *)

Section AnalysisTextFacts.

Import AzureAnalystApp.

Lemma split_LF_length (s : string) : length (split_LF s) = S (count_LF s).
Proof.
  induction s as [|c s IH]; [done|]. simpl.
  destruct (Ascii.eqb c (ascii_of_nat 10)); simpl; [by rewrite IH|].
  destruct (split_LF s); simpl in *; [done|exact IH].
Qed.

Lemma join_split_LF (s : string) : join_LF (split_LF s) = s.
Proof.
  induction s as [|c s IH]; [done|]. simpl.
  destruct (Ascii.eqb_spec c (ascii_of_nat 10)) as [->|Hc].
  - simpl. destruct (split_LF s) as [|l ls] eqn:Hs; [by simplify_eq/=|].
    by rewrite IH.
  - destruct (split_LF s) as [|l [|l' ls]] eqn:Hs; simpl in *;
      [by subst | by subst | by rewrite <- IH].
Qed.

Lemma trim_not_blank (c : ascii) (s : string) :
  is_white_space c = false -> String.eqb (trim (String c s)) "" = false.
Proof.
  intros Hc. unfold trim. simpl. rewrite Hc.
  pose proof (trimEnd_head s c Hc) as H.
  by destruct (String.eqb_spec (trimEnd (String c s)) "").
Qed.

Lemma prefix_empty (s : string) : String.prefix "" s = true.
Proof. by destruct s. Qed.

Lemma prefix_cons (a b : ascii) (s1 s2 : string) :
  String.prefix (String a s1) (String b s2)
  = bool_decide (a = b) && String.prefix s1 s2.
Proof.
  cbn [String.prefix]. destruct (Ascii.ascii_dec a b); by case_bool_decide.
Qed.

Lemma hashes_append_empty (n : nat) : hashes n +:+ "" = hashes n.
Proof.
  induction n as [|n IH]; [done|].
  change (String "#" (hashes n +:+ "") = String "#" (hashes n)).
  by rewrite IH.
Qed.

(** Settles the comparisons of characters left by [prefix_cons]. *)
Ltac decide_chars :=
  repeat match goal with
    | |- context [bool_decide (?a = ?b)] =>
        first [ rewrite (bool_decide_eq_true_2 (a = b)) by done
              | rewrite (bool_decide_eq_false_2 (a = b)) by done ]
    end;
  cbn [andb].

Lemma drop_hashes_hashes (n : nat) (s : string) :
  drop_hashes (hashes n +:+ s) = drop_hashes s.
Proof. induction n as [|n IH]; [done|]. simpl. exact IH. Qed.

(** X11.  The result panel of the Azure analyst panel is absent without a
    result; with a result whose [analysis] is a string it shows one element
    per line of the text, one more than the text has line feeds; with a
    result whose [analysis] is anything else (missing, null, a number)
    rendering raises. *)
Theorem analysisPanel_cases (analysisResult : value) :
  match analysisPanel analysisResult with
  | Hidden => truthy analysisResult = false
  | Shown lines =>
      exists text,
        opt_member analysisResult "analysis" = VStr text
        /\ lines = map renderLine (split_LF text)
        /\ length lines = S (count_LF text)
  | Raises =>
      truthy analysisResult = true
      /\ forall text, opt_member analysisResult "analysis" <> VStr text
  end.
Proof.
  unfold analysisPanel. destruct (truthy analysisResult); [|done].
  destruct (opt_member analysisResult "analysis") as [| | | |text| |];
    try done.
  exists text. by rewrite length_map, split_LF_length.
Qed.

(** X12.  A response that the panel accepts as a success (2xx, [status]
    "success") but that carries no [analysis] property is stored as the
    result, and rendering the result panel then raises instead of showing
    an error message. *)
Theorem success_without_analysis_raises
    (s : State) (status : nat) (result : object) :
  ok status = true ->
  result !! "status" = Some (VStr "success") ->
  result !! "analysis" = None ->
  let s' := resume (FetchResponse status (JsonValue (VObj result))) s in
  analysisResult s' = VObj result
  /\ error s' = error s
  /\ analysisPanel (analysisResult s') = Raises.
Proof.
  intros Hok Hst Han. unfold resume, try_body. rewrite Hok. simpl.
  rewrite (get_present _ _ _ Hst). simpl.
  split; [done|]. split; [done|].
  unfold analysisPanel. simpl. by rewrite (get_absent _ _ Han).
Qed.

Lemma success_without_analysis_raises_witness :
  let s := {| detectionData := Some ∅; isLoading := true;
              analysisResult := VNull; error := VNull |} in
  let result : object :=
    {[ "status" := VStr "success"; "response" := VStr "text" ]} in
  let s' := resume (FetchResponse 200 (JsonValue (VObj result))) s in
  analysisResult s' = VObj result
  /\ error s' = VNull
  /\ analysisPanel (analysisResult s') = Raises.
Proof.
  intros s result.
  exact (success_without_analysis_raises s 200 result eq_refl eq_refl eq_refl).
Defined.

(** X13.  A line of the analysis is rendered as a line break exactly when
    it consists of white space only. *)
Theorem renderLine_break (line : string) :
  renderLine line = Br <-> whitespace_only line = true.
Proof.
  unfold renderLine. fold (blank line). rewrite blank_whitespace_only.
  destruct (whitespace_only line); [done|].
  split; [|done]. repeat case_match; done.
Qed.

(** X14.  A line that starts with a hyphen and a space is rendered as a
    list item whose text is the rest of the line; a hyphen followed by
    another white-space character does not make a list item. *)
Theorem renderLine_list_item (rest : string) (c : ascii) :
  renderLine ("- " +:+ rest) = Li rest
  /\ (c <> " "%char -> is_white_space c = true ->
      renderLine (String "-" (String c rest)) = P (String "-" (String c rest))).
Proof.
  split.
  - change ("- " +:+ rest) with (String "-" (String " " rest)).
    unfold renderLine, startsWith. rewrite trim_not_blank by done.
    rewrite !prefix_cons, prefix_empty.
    by decide_chars.
  - intros Hc Hw. unfold renderLine, startsWith.
    rewrite trim_not_blank by done.
    rewrite !prefix_cons, prefix_empty.
    by decide_chars.
Qed.

Lemma renderLine_list_item_witness :
  renderLine "- Isolate the host" = Li "Isolate the host"
  /\ renderLine (String "-" (String (ascii_of_nat 9) "item"))
     = P (String "-" (String (ascii_of_nat 9) "item")).
Proof.
  destruct (renderLine_list_item "Isolate the host" (ascii_of_nat 9)) as [H _].
  destruct (renderLine_list_item "item" (ascii_of_nat 9)) as [_ H'].
  split; [exact H|]. apply H'; [discriminate|reflexivity].
Defined.

(** X15.  A line that starts with two or more hashes is rendered as a
    heading.  When the hashes are followed by a white-space character, the
    heading text is what follows that character; when they are followed by
    any other character, or by nothing, the heading text is the whole line,
    hashes included.  A line with a single leading hash is an ordinary
    paragraph. *)
Theorem renderLine_heading (n : nat) (c : ascii) (rest : string) :
  c <> "#"%char ->
  renderLine (hashes (2 + n) +:+ String c rest)
  = H4 (if is_white_space c then rest
        else hashes (2 + n) +:+ String c rest)
  /\ renderLine (hashes (2 + n)) = H4 (hashes (2 + n))
  /\ renderLine (String "#" (String c rest)) = P (String "#" (String c rest)).
Proof.
  intros Hc.
  assert (drop_hashes (String c rest) = String c rest) as Hd.
  { simpl. by destruct (Ascii.eqb_spec c "#"). }
  split; [|split].
  - change (hashes (2 + n) +:+ String c rest)
      with (String "#" (String "#" (hashes n +:+ String c rest))).
    unfold renderLine, startsWith. rewrite trim_not_blank by done.
    rewrite !prefix_cons, prefix_empty.
    decide_chars.
    unfold replace_heading_marker. cbn [Ascii.eqb Bool.eqb drop_hashes].
    by rewrite drop_hashes_hashes, Hd.
  - change (hashes (2 + n)) with (String "#" (String "#" (hashes n))).
    unfold renderLine, startsWith. rewrite trim_not_blank by done.
    rewrite !prefix_cons, prefix_empty.
    decide_chars.
    unfold replace_heading_marker. cbn [Ascii.eqb Bool.eqb drop_hashes].
    rewrite <- (hashes_append_empty n). by rewrite drop_hashes_hashes.
  - unfold renderLine, startsWith. rewrite trim_not_blank by done.
    rewrite !prefix_cons.
    by decide_chars.
Qed.

Lemma renderLine_heading_witness :
  renderLine "### Summary" = H4 "Summary"
  /\ renderLine "##" = H4 "##"
  /\ renderLine "# Summary" = P "# Summary".
Proof.
  assert (" "%char <> "#"%char) as H by discriminate.
  exact (renderLine_heading 0 " " "Summary" H).
Defined.

End AnalysisTextFacts.

(* ===================================================================== *)
(** ** The triage extension: requests *)
(* ===================================================================== *)

Section UiExtensionRequestFacts.

Import UiExtension.

Lemma triage_resume_failure (r : Settled) (s : State) :
  succeeded r = false ->
  exists text,
    text <> VNull /\ resume r s = setLoading false (setError text s).
Proof.
  intros Hf. unfold resume. destruct r as [response|]; simpl in *.
  - rewrite Hf. eexists. split; [apply or_else_not_null|done].
  - eexists. split; [|done]. done.
Qed.

Lemma triage_reanalyze (w : World) (d : object) :
  falcon (ui w) = true ->
  detectionData (ui w) = Some d ->
  truthy (analysis (ui w)) = true ->
  step w ClickReanalyze
  = {| ui := setError VNull (setLoading true (ui w));
       inflight := S (inflight w);
       calls := calls w ++ [ post "handle_triage_request" d ] |}.
Proof.
  intros Hf Hd Ha. cbn [step]. rewrite Hd, Ha. simpl.
  unfold invoke, handleTriage. by rewrite Hf, Hd.
Qed.

(** X16.  In the triage extension a failed re-analysis keeps the previous
    analysis: Re-analyze sends the displayed record and does not clear the
    analysis, and when the call fails the panel holds the error next to
    the earlier analysis. *)
Theorem failed_retriage_keeps_analysis
    (w : World) (d : object) (r : Settled) :
  falcon (ui w) = true ->
  detectionData (ui w) = Some d ->
  truthy (analysis (ui w)) = true ->
  succeeded r = false ->
  let pending := step w ClickReanalyze in
  let final := step pending (Settle r) in
  calls pending = calls w ++ [ post "handle_triage_request" d ]
  /\ analysis (ui pending) = analysis (ui w)
  /\ analysis (ui final) = analysis (ui w)
  /\ error (ui final) <> VNull
  /\ loading (ui final) = false.
Proof.
  intros Hf Hd Ha Hr pending final. unfold final, pending.
  rewrite (triage_reanalyze w d Hf Hd Ha). cbn [step inflight ui calls].
  destruct (triage_resume_failure r (setError VNull (setLoading true (ui w))) Hr)
    as (text & Hne & ->).
  done.
Qed.

Lemma failed_retriage_keeps_analysis_witness :
  let d : object := {[ "name" := VStr "first" ]} in
  let w := {| ui := {| falcon := true; detectionData := Some d;
                       analysis := VStr "verdict"; loading := false;
                       error := VNull |};
              inflight := 0; calls := [] |} in
  let final := run w [ClickReanalyze; Settle Rejected] in
  analysis (ui final) = VStr "verdict"
  /\ error (ui final) <> VNull
  /\ loading (ui final) = false.
Proof.
  intros d w.
  exact (proj2 (proj2 (failed_retriage_keeps_analysis w d Rejected
                         eq_refl eq_refl eq_refl eq_refl))).
Defined.



(** X18.  In the triage extension a response with [status] "success" whose
    [response] text is missing or empty leaves the panel silent: after the
    triage completes there is no analysis, no error and no loading
    indicator, and the Triage button is offered again. *)
Theorem empty_success_is_silent (w : World) (d body : object) :
  falcon (ui w) = true ->
  detectionData (ui w) = Some d ->
  truthy (analysis (ui w)) = false ->
  loading (ui w) = false ->
  body !! "status" = Some (VStr "success") ->
  truthy (get body "response") = false ->
  let final := run w [ClickTriage; Settle (Resolved (VObj body))] in
  calls final = calls w ++ [ post "handle_triage_request" d ]
  /\ truthy (analysis (ui final)) = false
  /\ error (ui final) = VNull
  /\ loading (ui final) = false.
Proof.
  intros Hf Hd Ha Hl Hst Hre final. unfold final, run. cbn [foldl step].
  rewrite Hd, Ha, Hl. simpl.
  unfold invoke, handleTriage. rewrite Hf, Hd. simpl.
  unfold resume. simpl. rewrite (get_present _ _ _ Hst). simpl.
  done.
Qed.

Lemma empty_success_is_silent_witness :
  let d : object := {[ "name" := VStr "first" ]} in
  let w := {| ui := {| falcon := true; detectionData := Some d;
                       analysis := VNull; loading := false; error := VNull |};
              inflight := 0; calls := [] |} in
  let body : object := {[ "status" := VStr "success"; "response" := VStr "" ]} in
  let final := run w [ClickTriage; Settle (Resolved (VObj body))] in
  calls final = [ post "handle_triage_request" d ]
  /\ truthy (analysis (ui final)) = false
  /\ error (ui final) = VNull
  /\ loading (ui final) = false.
Proof.
  intros d w body.
  exact (empty_success_is_silent w d body
           eq_refl eq_refl eq_refl eq_refl eq_refl eq_refl).
Defined.

(** X19.  In the triage extension new records never clear an error: after
    any number of data events the error shown, the loading flag and the
    requests in flight are what they were; only the record and the
    analysis change. *)
Theorem triage_error_survives_new_records (w : World) (records : list object) :
  falcon (ui w) = true ->
  let w' := run w (Data <$> records) in
  error (ui w') = error (ui w)
  /\ loading (ui w') = loading (ui w)
  /\ inflight w' = inflight w
  /\ calls w' = calls w
  /\ (forall record, last records = Some record ->
        detectionData (ui w') = Some record /\ analysis (ui w') = VNull).
Proof.
  revert w. induction records as [|d ds IH] using rev_ind; intros w Hf w'.
  { by repeat split. }
  unfold w', run. rewrite fmap_app, foldl_app. cbn [fmap list_fmap foldl].
  fold (run w (Data <$> ds)).
  destruct (IH w Hf) as (He & Hl & Hi & Hc & _).
  assert (falcon (ui (run w (Data <$> ds))) = true) as Hf'.
  { clear -Hf. revert w Hf. induction ds as [|x xs IHxs]; intros w Hf; [done|].
    simpl. apply IHxs. simpl. by rewrite Hf. }
  cbn [step]. rewrite Hf'. cbn [ui inflight calls].
  repeat split; try done.
  - by rewrite last_snoc in H; simplify_eq.
Qed.

Lemma triage_error_survives_new_records_witness :
  let w := run start [Connected (Some ∅); ClickTriage; Settle Rejected] in
  let w' := run w (Data <$> [ {[ "name" := VStr "second" ]} ]) in
  error (ui w') = VStr "Error calling AI service."
  /\ detectionData (ui w') = Some {[ "name" := VStr "second" ]}.
Proof.
  intros w.
  destruct (triage_error_survives_new_records w
              [ {[ "name" := VStr "second" ]} ] eq_refl)
    as (He & _ & _ & _ & Hd).
  split; [exact He|]. exact (proj1 (Hd _ eq_refl)).
Defined.

End UiExtensionRequestFacts.

(* ===================================================================== *)
(** ** The Azure analyst extension: traces and rendering *)
(* ===================================================================== *)

Section AzureAnalystExtensionTraces.

Import AzureAnalystExtension Normalizer.

Lemma get_insert_eq (o : object) (k : string) (v : value) :
  get (<[k:=v]> o) k = v.
Proof. unfold get. by rewrite lookup_insert_eq. Qed.

(** A result object whose [status] is not "success" is not displayed. *)
Lemma resultPanel_status (o : object) (status : string) :
  String.eqb status "success" = false ->
  resultPanel (VObj (<["status" := VStr status]> o)) = Hidden.
Proof.
  intros Hs. unfold resultPanel. cbn [truthy opt_member andb].
  rewrite get_insert_eq. cbn [strict_eq_str]. by rewrite Hs.
Qed.

Lemma extension_resume_cases (r : Settled) (s : State) :
  loading (resume r s) = false
  /\ data (resume r s) = data s
  /\ ((error (resume r s) = error s)
      \/ resultPanel (analysis (resume r s)) = Hidden).
Proof.
  unfold resume, try_body, catch.
  destruct r as [response|err]; [|by auto using resultPanel_status].
  destruct (member response "status") as [st|];
    [|by auto using resultPanel_status].
  destruct (strict_eq_str st "success"); simpl; [by auto|].
  split; [done|]. split; [done|]. right. by apply resultPanel_status.
Qed.

(** What every reachable state of the extension satisfies. *)
Lemma extension_invariant (es : list Event) :
  match inflight (run start es) with
  | 0 =>
      loading (ui (run start es)) = false
      /\ (error (ui (run start es)) = VNull
          \/ resultPanel (analysis (ui (run start es))) = Hidden)
  | 1 =>
      loading (ui (run start es)) = true
      /\ error (ui (run start es)) = VNull
      /\ resultPanel (analysis (ui (run start es))) = Hidden
  | _ => False
  end.
Proof.
  induction es as [|e es IH] using rev_ind; [simpl; auto|].
  unfold run in *. rewrite foldl_app. cbn [foldl].
  destruct (foldl step start es) as [s n cs]. cbn [inflight ui] in IH.
  destruct n as [|[|n]]; [| |done].
  - destruct IH as (Hl & He).
    destruct e as [d| |r]; cbn [step ui inflight calls].
    + simpl. auto.
    + rewrite Hl. cbn [orb]. case_bool_decide as Hd; [by simpl|].
      unfold invoke, handleAnalyze. cbn [ui].
      destruct (data s) as [d|]; [|done]. simpl. by auto.
    + by simpl.
  - destruct IH as (Hl & He & Hr).
    destruct e as [d| |r]; cbn [step ui inflight calls].
    + simpl. auto.
    + rewrite Hl. by simpl.
    + destruct (extension_resume_cases r s) as (H1 & _ & [H3|H3]).
      * split; [done|]. left. congruence.
      * split; [done|]. by right.
Qed.

(** X20.  On the Azure analyst extension at most one request is in flight
    in every reachable state, and [loading] is set exactly while one
    is. *)
Theorem extension_single_flight (es : list Event) :
  inflight (run start es) <= 1
  /\ (loading (ui (run start es)) = true <-> inflight (run start es) = 1).
Proof.
  pose proof (extension_invariant es) as H.
  destruct (inflight (run start es)) as [|[|n]]; [| |done].
  - destruct H as (-> & _). split; [lia|]. done.
  - destruct H as (-> & _). split; [lia|]. done.
Qed.

(** X21.  In every reachable state of the Azure analyst extension the
    result block and an error are never displayed together, and while a
    request is pending neither is displayed. *)
Theorem extension_error_or_result (es : list Event) :
  (error (ui (run start es)) = VNull
   \/ resultPanel (analysis (ui (run start es))) = Hidden)
  /\ (loading (ui (run start es)) = true ->
      error (ui (run start es)) = VNull
      /\ resultPanel (analysis (ui (run start es))) = Hidden).
Proof.
  pose proof (extension_invariant es) as H.
  destruct (inflight (run start es)) as [|[|n]]; [| |done].
  - destruct H as (-> & H). split; [done|]. done.
  - destruct H as (_ & -> & ->). split; [by left|]. done.
Qed.

(** X22.  A response with [status] "success" whose [analysis] text is
    missing or empty leaves the extension silent: once the request
    completes, the result block is absent, no error is shown and nothing is
    loading. *)
Theorem success_without_text_is_silent (s : State) (d response : object) :
  data s = Some d ->
  response !! "status" = Some (VStr "success") ->
  truthy (get response "analysis") = false ->
  let s' := resume (Resolved (VObj response)) (fst (handleAnalyze s)) in
  resultPanel (analysis s') = Hidden
  /\ error s' = VNull
  /\ loading s' = false
  /\ loadingPanel s' = false.
Proof.
  intros Hd Hst Han. unfold handleAnalyze. rewrite Hd. cbn [fst].
  unfold resume, try_body. cbn [member].
  rewrite (get_present _ _ _ Hst). cbn [strict_eq_str String.eqb].
  simpl.
  set (stored := ({[ "status" := VStr "success";
                     "analysis" := get response "analysis";
                     "timestamp" := get response "timestamp";
                     "model" := get response "model" ]} : object)).
  assert (get stored "analysis" = get response "analysis") as Hga.
  { unfold stored, get at 1. by simplify_map_eq. }
  split; [|done].
  unfold resultPanel. cbn [truthy opt_member andb].
  by rewrite Hga, Han, andb_false_r.
Qed.

Lemma success_without_text_is_silent_witness :
  let s := {| data := Some ∅; analysis := VNull; loading := false;
              error := VNull |} in
  let response : object := {[ "status" := VStr "success" ]} in
  let s' := resume (Resolved (VObj response)) (fst (handleAnalyze s)) in
  resultPanel (analysis s') = Hidden
  /\ error s' = VNull
  /\ loading s' = false
  /\ loadingPanel s' = false.
Proof.
  intros s response.
  exact (success_without_text_is_silent s ∅ response eq_refl eq_refl eq_refl).
Defined.

(** X23.  For every record whose identifier properties have their
    declared type (a string when present), the identifier shown is the
    value of the first present, non-empty alias in the order id,
    detection_id, incident_id, and the sentinel "N/A" when there is
    none. *)
Theorem displayId_alias_order (d : object) :
  declared_string d "id" ->
  declared_string d "detection_id" ->
  declared_string d "incident_id" ->
  displayId d = resolve d ["id"; "detection_id"; "incident_id"] "N/A".
Proof.
  intros H1 H2 H3.
  apply declared_string_cases in H1, H2, H3.
  unfold displayId, resolve. cbn [first_present].
  destruct (present d "id") as [s|].
  { destruct H1 as [H1 H1']. by rewrite !(or_else_truthy _ _ H1'). }
  rewrite (or_else_falsy _ _ H1).
  destruct (present d "detection_id") as [s|].
  { destruct H2 as [H2 H2']. by rewrite !(or_else_truthy _ _ H2'). }
  rewrite (or_else_falsy _ _ H2).
  destruct (present d "incident_id") as [s|].
  { destruct H3 as [H3 H3']. by rewrite (or_else_truthy _ _ H3'). }
  by rewrite (or_else_falsy _ _ H3).
Qed.

Lemma displayId_alias_order_witness :
  displayId {[ "incident_id" := VStr "inc:42"; "id" := VStr "" ]}
  = VStr "inc:42"
  /\ displayId ∅ = VStr "N/A".
Proof.
  split.
  - exact (displayId_alias_order
             {[ "incident_id" := VStr "inc:42"; "id" := VStr "" ]} I I I).
  - exact (displayId_alias_order ∅ I I I).
Defined.

(** X24.  [formatAnalysisText] yields one paragraph per line of the text,
    one more than the text has line feeds, and no paragraph is empty: an
    empty line becomes a no-break space and every other line is kept as it
    is. *)
Theorem formatAnalysisText_lines (text : string) :
  length (formatAnalysisText text) = S (count_LF text)
  /\ Forall (fun line => line <> "") (formatAnalysisText text)
  /\ forall i line,
       split_LF text !! i = Some line ->
       formatAnalysisText text !! i
       = Some (if String.eqb line "" then NBSP else line).
Proof.
  unfold formatAnalysisText. split; [|split].
  - by rewrite length_map, split_LF_length.
  - apply Forall_fmap, Forall_forall. intros line _. simpl.
    by destruct (String.eqb_spec line "").
  - intros i line Hi. by rewrite list_lookup_fmap, Hi.
Qed.

(** X25.  For a text without empty lines, the paragraphs of
    [formatAnalysisText] joined by line feeds give back the text. *)
Theorem formatAnalysisText_join (text : string) :
  Forall (fun line => line <> "") (split_LF text) ->
  join_LF (formatAnalysisText text) = text.
Proof.
  intros H. unfold formatAnalysisText.
  rewrite <- (join_split_LF text) at 2. f_equal.
  induction (split_LF text) as [|l ls IH]; [done|].
  apply Forall_cons in H as [Hl Hls]. simpl.
  destruct (String.eqb_spec l ""); [done|]. by rewrite IH.
Qed.

Lemma formatAnalysisText_join_witness :
  let text := "Verdict: malicious" +:+ LF +:+ "Isolate the host" in
  formatAnalysisText text = ["Verdict: malicious"; "Isolate the host"]
  /\ join_LF (formatAnalysisText text) = text.
Proof.
  intros text. split; [reflexivity|].
  apply (formatAnalysisText_join text). unfold text.
  repeat constructor; discriminate.
Defined.

End AzureAnalystExtensionTraces.
